(** * TenantDataService: a shallow embedding of data/service/TenantDataService.go

    The Go file is a data-access layer over two Cassandra tables, [tenant]
    and [application], reached through the gocql driver.  The embedding
    follows the file function by function.  The collaborators the file
    calls but does not define (the identifier types, the driver, the
    identifier generator) are given small executable models, each marked
    where it is introduced. *)

From Stdlib.Strings Require Import Byte Ascii.
From stdpp Require Import base option list numbers countable gmap strings.

Local Open Scope string_scope.

(** ** Bytes and sixteen-byte arrays *)

Global Instance byte_eq_dec : EqDecision byte := Byte.byte_eq_dec.

Global Instance byte_countable : Countable byte :=
  inj_countable Byte.to_N Byte.of_N Byte.of_to_N.

(** Go's [[16]byte]: a byte sequence whose length is fixed by its type. *)
Record bytes16 := Bytes16 {
  b16_bytes : list byte;
  b16_length : length b16_bytes = 16
}.

Lemma bytes16_eq (u v : bytes16) : b16_bytes u = b16_bytes v → u = v.
Proof.
  destruct u as [u Hu], v as [v Hv]; simpl; intros ->.
  f_equal. apply (proof_irrel Hu Hv).
Qed.

Global Instance bytes16_eq_dec : EqDecision bytes16.
Proof.
  intros u v. destruct (decide (b16_bytes u = b16_bytes v)) as [H|H].
  - left. by apply bytes16_eq.
  - right. by intros ->.
Defined.

Definition bytes16_zero : bytes16 := Bytes16 (replicate 16 x00) eq_refl.

(** The shape shared by gocql's and system's [UUIDFromBytes]: the input
    is copied when it is sixteen bytes long; otherwise the zero value is
    returned together with an error flag. *)
Definition bytes16_of_list (input : list byte) : bytes16 * bool :=
  match decide (length input = 16) with
  | left H => (Bytes16 input H, true)
  | right _ => (bytes16_zero, false)
  end.

Lemma bytes16_of_list_bytes (u : bytes16) :
  bytes16_of_list (b16_bytes u) = (u, true).
Proof.
  unfold bytes16_of_list. destruct (decide _) as [H|H].
  - f_equal. by apply bytes16_eq.
  - destruct H. apply b16_length.
Qed.

Lemma bytes16_decode (u : bytes16) :
  Some (bytes16_of_list (b16_bytes u)).1 = Some u.
Proof. by rewrite bytes16_of_list_bytes. Qed.

Global Instance bytes16_countable : Countable bytes16 :=
  inj_countable b16_bytes (λ l, Some (bytes16_of_list l).1) bytes16_decode.

(** ** Errors

    Go's [error] values met in the file come from two places: the ones the
    file builds itself with [fmt.Errorf], and the ones it receives from a
    collaborator and hands on.  The collaborator models below describe a
    failure by its message alone and wrap it in [CollaboratorError], so an
    [Errorf] value is always one the file built. *)
Inductive error :=
  | Errorf (msg : string)
  | CollaboratorError (msg : string).

Global Instance error_eq_dec : EqDecision error.
Proof. solve_decision. Defined.

(** ** Hexadecimal text *)

Definition hexString : list ascii := String.list_ascii_of_string "0123456789abcdef".

Definition hexdigit (n : N) : ascii := nth (N.to_nat n) hexString "0"%char.

Definition hi (b : byte) : N := (Byte.to_N b / 16)%N.
Definition lo (b : byte) : N := (Byte.to_N b mod 16)%N.

Definition hex_of_byte (b : byte) : list ascii := [hexdigit (hi b); hexdigit (lo b)].

Definition hex (bs : list byte) : list ascii := bs ≫= hex_of_byte.

(** The value of a hexadecimal digit, in either case. *)
Definition hexval (r : ascii) : option N :=
  let n := N_of_ascii r in
  if ((48 <=? n) && (n <=? 57))%N then Some (n - 48)%N
  else if ((97 <=? n) && (n <=? 102))%N then Some (n - 97 + 10)%N
  else if ((65 <=? n) && (n <=? 70))%N then Some (n - 65 + 10)%N
  else None.

(** ** package system (Micro-Business-Core) *)

Module system.

(** Modelled from the spec: the identifier type [system.UUID] lives in
    Micro-Business-Core.  The spec describes it as a 128-bit value
    convertible to and from a raw byte sequence and to its canonical
    textual form. *)
Record UUID := MkUUID { raw : bytes16 }.

Global Instance UUID_eq_dec : EqDecision UUID.
Proof. solve_decision. Defined.

Global Instance UUID_countable : Countable UUID :=
  inj_countable' raw MkUUID (λ u, match u with MkUUID _ => eq_refl end).

Definition EmptyUUID : UUID := MkUUID bytes16_zero.

Definition Bytes (uuid : UUID) : list byte := b16_bytes (raw uuid).

Definition UUIDFromBytes (input : list byte) : UUID * option error :=
  let '(u, ok) := bytes16_of_list input in
  (MkUUID u,
   if ok then None else Some (CollaboratorError "UUIDs must be exactly 16 bytes long")).

(** Modelled from the spec: the canonical textual form, thirty-two
    lower-case hexadecimal digits in groups of 8, 4, 4, 4 and 12. *)
Definition String (uuid : UUID) : string :=
  let group i n := hex (take n (drop i (Bytes uuid))) in
  String.string_of_list_ascii
    (group 0 4 ++ "-"%char :: group 4 2 ++ "-"%char :: group 6 2 ++
     "-"%char :: group 8 2 ++ "-"%char :: group 10 6).

(** Modelled from the spec: the identifier generator,
    [GenerateRandomUUID() -> (UUID, error)], given by the identifier its
    next call returns and, when the call fails, the message of the
    failure. *)
Record UUIDGeneratorService := {
  generated : UUID;
  generator_failure : option string
}.

Definition GenerateRandomUUID (g : UUIDGeneratorService) : UUID * option error :=
  (generated g, CollaboratorError <$> generator_failure g).

End system.

(** ** package contract *)

Module contract.
Record Tenant := { SecretKey : string }.
Record Application := { Name : string }.

Global Instance Tenant_eq_dec : EqDecision Tenant.
Proof. solve_decision. Defined.
Global Instance Application_eq_dec : EqDecision Application.
Proof. solve_decision. Defined.
End contract.

(** ** package gocql (the Cassandra driver) *)

Module gocql.

(** Modelled from the spec: the driver's identifier type, a sixteen-byte
    array with [Bytes], [UUIDFromBytes] and [ParseUUID]. *)
Record UUID := MkUUID { raw : bytes16 }.

Global Instance UUID_eq_dec : EqDecision UUID.
Proof. solve_decision. Defined.

Global Instance UUID_countable : Countable UUID :=
  inj_countable' raw MkUUID (λ u, match u with MkUUID _ => eq_refl end).

Definition Bytes (uuid : UUID) : list byte := b16_bytes (raw uuid).

Definition UUIDFromBytes (input : list byte) : UUID * option error :=
  let '(u, ok) := bytes16_of_list input in
  (MkUUID u,
   if ok then None else Some (CollaboratorError "UUIDs must be exactly 16 bytes long")).

(** Modelled from the spec: reading the textual form back.  [ParseUUID]
    reads thirty-two hexadecimal digits and skips a hyphen wherever an
    even number of digits has been read.  [j] counts the digits read so
    far. *)
Fixpoint parse_digits (input : list ascii) (j : nat) : option (list N) :=
  match input with
  | [] => if decide (j = 32) then Some [] else None
  | r :: input' =>
      if Ascii.eqb r "-"%char && Nat.even j then parse_digits input' j
      else match hexval r with
           | Some v => if (j <? 32)%nat
                       then (v ::.) <$> parse_digits input' (S j)
                       else None
           | None => None
           end
  end.

Fixpoint pack (digits : list N) : option (list byte) :=
  match digits with
  | [] => Some []
  | h :: l :: digits' =>
      b ← Byte.of_N (h * 16 + l); (b ::.) <$> pack digits'
  | [_] => None
  end.

Definition ParseUUID (input : string) : option UUID :=
  digits ← parse_digits (String.list_ascii_of_string input) 0;
  bs ← pack digits;
  let '(u, ok) := bytes16_of_list bs in
  if ok then Some (MkUUID u) else None.

(** A value bound to a placeholder, or held in a column of a row. *)
Inductive Value :=
  | VUUID (u : UUID)
  | VString (s : string).

Global Instance Value_eq_dec : EqDecision Value.
Proof. solve_decision. Defined.

(** The seven statement texts the file sends. *)
Inductive Cql :=
  | INSERT_tenant        (* INSERT INTO tenant (tenant_id, secret_key) VALUES(?, ?) *)
  | DELETE_tenant        (* DELETE FROM tenant WHERE tenant_id = ? *)
  | SELECT_secret_key    (* SELECT secret_key FROM tenant WHERE tenant_id = ? *)
  | INSERT_application   (* INSERT INTO application (tenant_id, application_id, name) VALUES(?, ?, ?) *)
  | DELETE_application   (* DELETE FROM application WHERE tenant_id = ? AND application_id = ? *)
  | SELECT_name          (* SELECT name FROM application WHERE tenant_id = ? AND application_id = ? *)
  | SELECT_applications. (* SELECT application_id, name FROM application WHERE tenant_id = ? *)

Global Instance Cql_eq_dec : EqDecision Cql.
Proof. solve_decision. Defined.

(** Modelled from the spec: the stored tables.  [tenant] has primary key
    [tenant_id] and column [secret_key]; [application] has primary key
    [(tenant_id, application_id)] and column [name]. *)
Record Keyspace := {
  tenant : gmap UUID string;
  application : gmap (UUID * UUID) string
}.

(** How the driver encodes a bound value for a column of type uuid or
    text: a string bound to a uuid column is parsed. *)
Definition marshalUUID (v : Value) : option UUID :=
  match v with
  | VUUID u => Some u
  | VString s => ParseUUID s
  end.

Definition marshalText (v : Value) : option string :=
  match v with
  | VString s => Some s
  | VUUID _ => None
  end.

(** Modelled from the spec: the effect of a mutating statement on the
    rows.  INSERT writes the row under its key, replacing one already
    there; DELETE removes it. *)
Definition write (stmt : Cql) (values : list Value) (ks : Keyspace) : option Keyspace :=
  match stmt, values with
  | INSERT_tenant, [k; v] =>
      k ← marshalUUID k; v ← marshalText v;
      Some {| tenant := <[k := v]> (tenant ks); application := application ks |}
  | DELETE_tenant, [k] =>
      k ← marshalUUID k;
      Some {| tenant := delete k (tenant ks); application := application ks |}
  | INSERT_application, [t; a; n] =>
      t ← marshalUUID t; a ← marshalUUID a; n ← marshalText n;
      Some {| tenant := tenant ks; application := <[(t, a) := n]> (application ks) |}
  | DELETE_application, [t; a] =>
      t ← marshalUUID t; a ← marshalUUID a;
      Some {| tenant := tenant ks; application := delete (t, a) (application ks) |}
  | _, _ => None
  end.

(** The rows of [application] stored under one tenant identifier, as
    (application_id, name) pairs. *)
Definition applications_of (t : UUID) (ks : Keyspace) : list (UUID * string) :=
  (λ r : UUID * UUID * string, (r.1.2, r.2)) <$>
    filter (λ r : UUID * UUID * string, r.1.1 = t) (map_to_list (application ks)).

(** Modelled from the spec: the rows a SELECT returns. *)
Definition read (stmt : Cql) (values : list Value) (ks : Keyspace) : option (list (list Value)) :=
  match stmt, values with
  | SELECT_secret_key, [k] =>
      k ← marshalUUID k;
      Some (match tenant ks !! k with Some v => [[VString v]] | None => [] end)
  | SELECT_name, [t; a] =>
      t ← marshalUUID t; a ← marshalUUID a;
      Some (match application ks !! (t, a) with Some n => [[VString n]] | None => [] end)
  | SELECT_applications, [t] =>
      t ← marshalUUID t;
      Some ((λ r : UUID * string, [VUUID r.1; VString r.2]) <$> applications_of t ks)
  | _, _ => None
  end.

(** Modelled from the spec: statement execution can fail.  A statement
    the cluster fails to carry out comes back with an error (given by its
    message); a failed write may or may not have been applied. *)
Definition Faults := Cql → list Value → option (string * bool).

Record Session := {
  keyspace : Keyspace;
  faults : Faults
}.

Record Query := {
  session : Session;
  stmt : Cql;
  values : list Value
}.

Definition Session_Query (s : Session) (stmt : Cql) (values : list Value) : Query :=
  {| session := s; stmt := stmt; values := values |}.

Definition marshal_error : error := CollaboratorError "can not marshal".

Definition Exec (q : Query) : Session * option error :=
  let s := session q in
  match faults s (stmt q) (values q), write (stmt q) (values q) (keyspace s) with
  | None, Some ks => ({| keyspace := ks; faults := faults s |}, None)
  | None, None => (s, Some marshal_error)
  | Some (e, true), Some ks =>
      ({| keyspace := ks; faults := faults s |}, Some (CollaboratorError e))
  | Some (e, _), _ => (s, Some (CollaboratorError e))
  end.

Record Iter := {
  rows : list (list Value);
  err : option error
}.

Definition Query_Iter (q : Query) : Iter :=
  let s := session q in
  match faults s (stmt q) (values q), read (stmt q) (values q) (keyspace s) with
  | None, Some rs => {| rows := rs; err := None |}
  | None, None => {| rows := []; err := Some marshal_error |}
  | Some (e, _), _ => {| rows := []; err := Some (CollaboratorError e) |}
  end.

(** Modelled from the spec: iteration over result rows.  [Scan] with one
    destination of type [*string] is false when the iterator carries an
    error, has no row left, or the row does not fit the destination. *)
Definition Scan_string (iter : Iter) : option (string * Iter) :=
  match err iter, rows iter with
  | None, [VString s] :: rest => Some (s, {| rows := rest; err := None |})
  | _, _ => None
  end.

(** [Scan] with destinations of type [*gocql.UUID] and [*string]. *)
Definition Scan_UUID_string (iter : Iter) : option (UUID * string * Iter) :=
  match err iter, rows iter with
  | None, [VUUID u; VString s] :: rest => Some (u, s, {| rows := rest; err := None |})
  | _, _ => None
  end.

(** Modelled from the spec: the session provider,
    [CreateSession() -> (Session, error)].  The cluster as seen from one
    call: whether a session can be opened and which statements fail in
    it. *)
Record ClusterConfig := {
  connect_failure : option string;
  cluster_faults : Faults
}.

Definition CreateSession (cfg : ClusterConfig) (ks : Keyspace) : Session + error :=
  match connect_failure cfg with
  | Some e => inr (CollaboratorError e)
  | None => inl {| keyspace := ks; faults := cluster_faults cfg |}
  end.

End gocql.

(** ** package service: TenantDataService.go *)

Module service.
Import contract.
Import gocql (Value, VUUID, VString, Keyspace).

(** The two collaborators of the service, as they answer during one
    call.  Both fields are always present, which is what the
    [diagnostics.IsNotNil] guards of the Go methods demand. *)
Record TenantDataService := {
  UUIDGeneratorService : system.UUIDGeneratorService;
  ClusterConfig : gocql.ClusterConfig
}.

Definition mapSystemUUIDToGocqlUUID (uuid : system.UUID) : gocql.UUID :=
  let '(mappedUUID, _) := gocql.UUIDFromBytes (system.Bytes uuid) in
  mappedUUID.

Definition mapGocqlUUIDToSystemUUID (uuid : gocql.UUID) : system.UUID :=
  let '(mappedUUID, _) := system.UUIDFromBytes (gocql.Bytes uuid) in
  mappedUUID.

(** The two messages built with [fmt.Errorf]. *)
Definition tenantNotFound (tenantID : system.UUID) : error :=
  Errorf ("Tenant not found. Tenant ID: " +:+ system.String tenantID).

Definition applicationNotFound (tenantID applicationID : system.UUID) : error :=
  Errorf ("Tenant Application not found. Tenant ID: " +:+ system.String tenantID +:+
          ", Application ID: " +:+ system.String applicationID).

Definition addOrUpdateTenant (tenantID : system.UUID) (tenant : Tenant)
    (session : gocql.Session) : gocql.Session * option error :=
  let mappedTenantID := mapSystemUUIDToGocqlUUID tenantID in
  gocql.Exec (gocql.Session_Query session gocql.INSERT_tenant
                [VUUID mappedTenantID; VString (SecretKey tenant)]).

Definition readTenant (tenantID : system.UUID) (session : gocql.Session)
    : Tenant * option error :=
  let iter := gocql.Query_Iter (gocql.Session_Query session gocql.SELECT_secret_key
                                  [VString (system.String tenantID)]) in
  match gocql.Scan_string iter with
  | None => ({| SecretKey := "" |}, Some (tenantNotFound tenantID))
  | Some (secretKey, _) => ({| SecretKey := secretKey |}, None)
  end.

Definition doesTenantExist (tenantID : system.UUID) (session : gocql.Session) : bool :=
  let iter := gocql.Query_Iter (gocql.Session_Query session gocql.SELECT_secret_key
                                  [VString (system.String tenantID)]) in
  match gocql.Scan_string iter with
  | None => false
  | Some _ => true
  end.

Definition addOrUpdateApplication (tenantID applicationID : system.UUID)
    (application : Application) (session : gocql.Session)
    : gocql.Session * option error :=
  let mappedTenantID := mapSystemUUIDToGocqlUUID tenantID in
  let mappedApplicationID := mapSystemUUIDToGocqlUUID applicationID in
  gocql.Exec (gocql.Session_Query session gocql.INSERT_application
                [VUUID mappedTenantID; VUUID mappedApplicationID;
                 VString (Name application)]).

Definition readApplication (tenantID applicationID : system.UUID)
    (session : gocql.Session) : Application * option error :=
  let iter := gocql.Query_Iter (gocql.Session_Query session gocql.SELECT_name
                                  [VString (system.String tenantID);
                                   VString (system.String applicationID)]) in
  match gocql.Scan_string iter with
  | None => ({| Name := "" |}, Some (applicationNotFound tenantID applicationID))
  | Some (name, _) => ({| Name := name |}, None)
  end.

(** The [for iter.Scan(&applicationID, &name)] loop.  [fuel] bounds the
    number of rounds; the caller passes the number of rows the iterator
    holds, which the loop cannot exceed. *)
Fixpoint scanApplications (fuel : nat) (iter : gocql.Iter)
    (applications : gmap system.UUID Application) : gmap system.UUID Application :=
  match fuel with
  | 0 => applications
  | S fuel =>
      match gocql.Scan_UUID_string iter with
      | Some (applicationID, name, iter) =>
          scanApplications fuel iter
            (<[mapGocqlUUIDToSystemUUID applicationID := {| Name := name |}]> applications)
      | None => applications
      end
  end.

Definition readAllApplications (tenantID : system.UUID) (session : gocql.Session)
    : gmap system.UUID Application :=
  let iter := gocql.Query_Iter (gocql.Session_Query session gocql.SELECT_applications
                                  [VString (system.String tenantID)]) in
  scanApplications (length (gocql.rows iter)) iter ∅.

Definition doesApplicationExist (tenantID applicationID : system.UUID)
    (session : gocql.Session) : bool :=
  let iter := gocql.Query_Iter (gocql.Session_Query session gocql.SELECT_name
                                  [VString (system.String tenantID);
                                   VString (system.String applicationID)]) in
  match gocql.Scan_string iter with
  | None => false
  | Some _ => true
  end.

(** *** The exported methods

    Each takes the stored tables as they are when the call starts and
    returns, next to the Go results, the tables as the call leaves
    them. *)

Definition CreateTenant (tenantDataService : TenantDataService) (ks : Keyspace)
    (tenant : Tenant) : system.UUID * option error * Keyspace :=
  match system.GenerateRandomUUID (UUIDGeneratorService tenantDataService) with
  | (_, Some err) => (system.EmptyUUID, Some err, ks)
  | (tenantID, None) =>
      match gocql.CreateSession (ClusterConfig tenantDataService) ks with
      | inr err => (system.EmptyUUID, Some err, ks)
      | inl session =>
          let '(session, err) := addOrUpdateTenant tenantID tenant session in
          (tenantID, err, gocql.keyspace session)
      end
  end.

Definition UpdateTenant (tenantDataService : TenantDataService) (ks : Keyspace)
    (tenantID : system.UUID) (tenant : Tenant) : option error * Keyspace :=
  match gocql.CreateSession (ClusterConfig tenantDataService) ks with
  | inr err => (Some err, ks)
  | inl session =>
      if negb (doesTenantExist tenantID session)
      then (Some (tenantNotFound tenantID), gocql.keyspace session)
      else
        let '(session, err) := addOrUpdateTenant tenantID tenant session in
        (err, gocql.keyspace session)
  end.

Definition ReadTenant (tenantDataService : TenantDataService) (ks : Keyspace)
    (tenantID : system.UUID) : Tenant * option error * Keyspace :=
  match gocql.CreateSession (ClusterConfig tenantDataService) ks with
  | inr err => ({| SecretKey := "" |}, Some err, ks)
  | inl session => (readTenant tenantID session, gocql.keyspace session)
  end.

Definition DeleteTenant (tenantDataService : TenantDataService) (ks : Keyspace)
    (tenantID : system.UUID) : option error * Keyspace :=
  match gocql.CreateSession (ClusterConfig tenantDataService) ks with
  | inr err => (Some err, ks)
  | inl session =>
      if negb (doesTenantExist tenantID session)
      then (Some (tenantNotFound tenantID), gocql.keyspace session)
      else
        let mappedTenantID := mapSystemUUIDToGocqlUUID tenantID in
        let '(session, err) :=
          gocql.Exec (gocql.Session_Query session gocql.DELETE_tenant
                        [VUUID mappedTenantID]) in
        (err, gocql.keyspace session)
  end.

Definition CreateApplication (tenantDataService : TenantDataService) (ks : Keyspace)
    (tenantID : system.UUID) (application : Application)
    : system.UUID * option error * Keyspace :=
  match gocql.CreateSession (ClusterConfig tenantDataService) ks with
  | inr err => (system.EmptyUUID, Some err, ks)
  | inl session =>
      if negb (doesTenantExist tenantID session)
      then (system.EmptyUUID, Some (tenantNotFound tenantID), gocql.keyspace session)
      else
        match system.GenerateRandomUUID (UUIDGeneratorService tenantDataService) with
        | (_, Some err) => (system.EmptyUUID, Some err, gocql.keyspace session)
        | (applicationID, None) =>
            let '(session, err) :=
              addOrUpdateApplication tenantID applicationID application session in
            (applicationID, err, gocql.keyspace session)
        end
  end.

Definition UpdateApplication (tenantDataService : TenantDataService) (ks : Keyspace)
    (tenantID applicationID : system.UUID) (application : Application)
    : option error * Keyspace :=
  match gocql.CreateSession (ClusterConfig tenantDataService) ks with
  | inr err => (Some err, ks)
  | inl session =>
      if negb (doesTenantExist tenantID session)
      then (Some (tenantNotFound tenantID), gocql.keyspace session)
      else if negb (doesApplicationExist tenantID applicationID session)
      then (Some (applicationNotFound tenantID applicationID), gocql.keyspace session)
      else
        let '(session, err) :=
          addOrUpdateApplication tenantID applicationID application session in
        (err, gocql.keyspace session)
  end.

Definition ReadApplication (tenantDataService : TenantDataService) (ks : Keyspace)
    (tenantID applicationID : system.UUID) : Application * option error * Keyspace :=
  match gocql.CreateSession (ClusterConfig tenantDataService) ks with
  | inr err => ({| Name := "" |}, Some err, ks)
  | inl session =>
      if negb (doesTenantExist tenantID session)
      then ({| Name := "" |}, Some (tenantNotFound tenantID), gocql.keyspace session)
      else (readApplication tenantID applicationID session, gocql.keyspace session)
  end.

(** A Go map that is [nil] is told apart from an empty one. *)
Definition ReadAllApplications (tenantDataService : TenantDataService) (ks : Keyspace)
    (tenantID : system.UUID)
    : option (gmap system.UUID Application) * option error * Keyspace :=
  match gocql.CreateSession (ClusterConfig tenantDataService) ks with
  | inr err => (None, Some err, ks)
  | inl session =>
      if negb (doesTenantExist tenantID session)
      then (None, Some (tenantNotFound tenantID), gocql.keyspace session)
      else (Some (readAllApplications tenantID session), None, gocql.keyspace session)
  end.

Definition DeleteApplication (tenantDataService : TenantDataService) (ks : Keyspace)
    (tenantID applicationID : system.UUID) : option error * Keyspace :=
  match gocql.CreateSession (ClusterConfig tenantDataService) ks with
  | inr err => (Some err, ks)
  | inl session =>
      if negb (doesTenantExist tenantID session)
      then (Some (tenantNotFound tenantID), gocql.keyspace session)
      else if negb (doesApplicationExist tenantID applicationID session)
      then (Some (applicationNotFound tenantID applicationID), gocql.keyspace session)
      else
        let mappedTenantID := mapSystemUUIDToGocqlUUID tenantID in
        let mappedApplicationID := mapSystemUUIDToGocqlUUID applicationID in
        let '(session, err) :=
          gocql.Exec (gocql.Session_Query session gocql.DELETE_application
                        [VUUID mappedTenantID; VUUID mappedApplicationID]) in
        (err, gocql.keyspace session)
  end.

End service.

(** ** Vocabulary of the properties *)

Import contract service.

Local Close Scope string_scope.

(** No application row without the row of its tenant. *)
Definition referential_integrity (ks : gocql.Keyspace) : Prop :=
  ∀ t a n, gocql.application ks !! (t, a) = Some n → is_Some (gocql.tenant ks !! t).

(** One call of an exported method. *)
Inductive Call :=
  | CallCreateTenant (tenant : Tenant)
  | CallUpdateTenant (tenantID : system.UUID) (tenant : Tenant)
  | CallReadTenant (tenantID : system.UUID)
  | CallDeleteTenant (tenantID : system.UUID)
  | CallCreateApplication (tenantID : system.UUID) (application : Application)
  | CallUpdateApplication (tenantID applicationID : system.UUID) (application : Application)
  | CallReadApplication (tenantID applicationID : system.UUID)
  | CallReadAllApplications (tenantID : system.UUID)
  | CallDeleteApplication (tenantID applicationID : system.UUID).

(** The error a call returns and the tables it leaves. *)
Definition perform (svc : TenantDataService) (c : Call) (ks : gocql.Keyspace)
    : option error * gocql.Keyspace :=
  match c with
  | CallCreateTenant t => let '(_, err, ks') := CreateTenant svc ks t in (err, ks')
  | CallUpdateTenant id t => UpdateTenant svc ks id t
  | CallReadTenant id => let '(_, err, ks') := ReadTenant svc ks id in (err, ks')
  | CallDeleteTenant id => DeleteTenant svc ks id
  | CallCreateApplication id a =>
      let '(_, err, ks') := CreateApplication svc ks id a in (err, ks')
  | CallUpdateApplication id aid a => UpdateApplication svc ks id aid a
  | CallReadApplication id aid =>
      let '(_, err, ks') := ReadApplication svc ks id aid in (err, ks')
  | CallReadAllApplications id =>
      let '(_, err, ks') := ReadAllApplications svc ks id in (err, ks')
  | CallDeleteApplication id aid => DeleteApplication svc ks id aid
  end.

(** The identifiers a call names. *)
Definition tenant_of (c : Call) : option system.UUID :=
  match c with
  | CallCreateTenant _ => None
  | CallUpdateTenant id _ | CallReadTenant id | CallDeleteTenant id
  | CallCreateApplication id _ | CallUpdateApplication id _ _
  | CallReadApplication id _ | CallReadAllApplications id
  | CallDeleteApplication id _ => Some id
  end.

Definition application_of (c : Call) : option system.UUID :=
  match c with
  | CallUpdateApplication _ aid _ | CallReadApplication _ aid
  | CallDeleteApplication _ aid => Some aid
  | _ => None
  end.

Definition is_DeleteTenant (c : Call) : bool :=
  match c with CallDeleteTenant _ => true | _ => false end.

Definition empty_keyspace : gocql.Keyspace :=
  {| gocql.tenant := ∅; gocql.application := ∅ |}.

(** The states the tables can be brought to, starting empty, by calls of
    the exported methods under any behaviour of the collaborators. *)
Inductive reachable : gocql.Keyspace → Prop :=
  | reachable_empty : reachable empty_keyspace
  | reachable_call svc c ks : reachable ks → reachable (perform svc c ks).2.

(** The same, for histories that never call [DeleteTenant]. *)
Inductive reachable_keeping_tenants : gocql.Keyspace → Prop :=
  | keeping_empty : reachable_keeping_tenants empty_keyspace
  | keeping_call svc c ks :
      is_DeleteTenant c = false →
      reachable_keeping_tenants ks →
      reachable_keeping_tenants (perform svc c ks).2.

(** How many stored rows match a key. *)
Definition tenant_rows_matching (k : gocql.UUID) (ks : gocql.Keyspace) : nat :=
  length (filter (λ r : gocql.UUID * string, r.1 = k) (map_to_list (gocql.tenant ks))).

Definition application_rows_matching (t a : gocql.UUID) (ks : gocql.Keyspace) : nat :=
  length (filter (λ r : gocql.UUID * gocql.UUID * string, r.1 = (t, a))
            (map_to_list (gocql.application ks))).

(** Two tables hold rows under the same keys. *)
Definition same_keys {K} `{Countable K} {V} (m1 m2 : gmap K V) : Prop :=
  ∀ k, is_Some (m1 !! k) ↔ is_Some (m2 !! k).

(** The cluster opens a session for the call. *)
Definition connects (svc : TenantDataService) : Prop :=
  gocql.connect_failure (ClusterConfig svc) = None.

(** The cluster carries out every statement of the call. *)
Definition answers (svc : TenantDataService) : Prop :=
  ∀ stmt values, gocql.cluster_faults (ClusterConfig svc) stmt values = None.

(** A message spells out an identifier in its textual form. *)
Definition mentions (msg : string) (id : system.UUID) : Prop :=
  ∃ before after, msg = before +:+ system.String id +:+ after.

(** The identifier generator delivers [id]. *)
Definition generates (svc : TenantDataService) (id : system.UUID) : Prop :=
  system.GenerateRandomUUID (UUIDGeneratorService svc) = (id, None).

(** The key under which rows are stored for a system identifier, and the
    values bound by the point lookups. *)
Definition key_of (id : system.UUID) : gocql.UUID := mapSystemUUIDToGocqlUUID id.

Definition select_tenant (id : system.UUID) : list gocql.Value :=
  [gocql.VString (system.String id)].

Definition select_application (id aid : system.UUID) : list gocql.Value :=
  [gocql.VString (system.String id); gocql.VString (system.String aid)].

(** What a write leaves behind, by the fate the cluster gives it. *)
Definition settle (s : gocql.Session) (fate : option (string * bool))
    (ks' : gocql.Keyspace) : gocql.Session * option error :=
  match fate with
  | None => ({| gocql.keyspace := ks'; gocql.faults := gocql.faults s |}, None)
  | Some (e, true) =>
      ({| gocql.keyspace := ks'; gocql.faults := gocql.faults s |}, Some (CollaboratorError e))
  | Some (e, false) => (s, Some (CollaboratorError e))
  end.

Definition with_tenant (k : gocql.UUID) (v : string) (ks : gocql.Keyspace) : gocql.Keyspace :=
  {| gocql.tenant := <[k := v]> (gocql.tenant ks); gocql.application := gocql.application ks |}.

Definition without_tenant (k : gocql.UUID) (ks : gocql.Keyspace) : gocql.Keyspace :=
  {| gocql.tenant := delete k (gocql.tenant ks); gocql.application := gocql.application ks |}.

Definition with_application (t a : gocql.UUID) (n : string) (ks : gocql.Keyspace)
    : gocql.Keyspace :=
  {| gocql.tenant := gocql.tenant ks;
     gocql.application := <[(t, a) := n]> (gocql.application ks) |}.

Definition without_application (t a : gocql.UUID) (ks : gocql.Keyspace) : gocql.Keyspace :=
  {| gocql.tenant := gocql.tenant ks;
     gocql.application := delete (t, a) (gocql.application ks) |}.

(** The hexadecimal digits of a byte sequence, as numbers. *)
Definition digits_of (bs : list byte) : list N := bs ≫= λ b, [hi b; lo b].

(** What a call can do to the tables: nothing, or write or remove one
    row.  A tenant row is removed only by [DeleteTenant]; an application
    row is written only under a stored tenant row. *)
Inductive effect (c : Call) (ks : gocql.Keyspace) : gocql.Keyspace → Prop :=
  | effect_none : effect c ks ks
  | effect_with_tenant k v : effect c ks (with_tenant k v ks)
  | effect_without_tenant k :
      is_DeleteTenant c = true → effect c ks (without_tenant k ks)
  | effect_with_application t a n :
      is_Some (gocql.tenant ks !! t) → effect c ks (with_application t a n ks)
  | effect_without_application t a : effect c ks (without_application t a ks).

(** The row the driver returns for an application, and one round of the
    loop of [readAllApplications]. *)
Definition row_of (r : gocql.UUID * string) : list gocql.Value :=
  [gocql.VUUID r.1; gocql.VString r.2].

Definition record (m : gmap system.UUID Application) (r : gocql.UUID * string)
    : gmap system.UUID Application :=
  <[mapGocqlUUIDToSystemUUID r.1 := {| Name := r.2 |}]> m.

(** *** Calls as single statements *)

(** The one mutating statement a call can send, given as the tables it
    leaves when it is carried out.  The three read methods send none.
    The two create methods write under the identifier the generator
    hands out. *)
Definition statement_of (svc : TenantDataService) (c : Call) (ks : gocql.Keyspace)
    : option gocql.Keyspace :=
  let fresh := key_of (system.generated (UUIDGeneratorService svc)) in
  match c with
  | CallCreateTenant t => Some (with_tenant fresh (SecretKey t) ks)
  | CallUpdateTenant id t => Some (with_tenant (key_of id) (SecretKey t) ks)
  | CallDeleteTenant id => Some (without_tenant (key_of id) ks)
  | CallCreateApplication id a =>
      Some (with_application (key_of id) fresh (Name a) ks)
  | CallUpdateApplication id aid a =>
      Some (with_application (key_of id) (key_of aid) (Name a) ks)
  | CallDeleteApplication id aid =>
      Some (without_application (key_of id) (key_of aid) ks)
  | CallReadTenant _ | CallReadApplication _ _ | CallReadAllApplications _ => None
  end.

Definition written (svc : TenantDataService) (c : Call) (ks : gocql.Keyspace)
    : gocql.Keyspace :=
  default ks (statement_of svc c ks).

(** The rows a call looks for before it does its work. *)
Definition rows_required (c : Call) (ks : gocql.Keyspace) : Prop :=
  match tenant_of c with
  | None => True
  | Some id =>
      is_Some (gocql.tenant ks !! key_of id) ∧
      match application_of c with
      | None => True
      | Some aid => is_Some (gocql.application ks !! (key_of id, key_of aid))
      end
  end.

(** The tenant key a call works under. *)
Definition tenant_touched (svc : TenantDataService) (c : Call) : gocql.UUID :=
  match tenant_of c with
  | Some id => key_of id
  | None => key_of (system.generated (UUIDGeneratorService svc))
  end.

(** The session a call works in once the cluster has opened it. *)
Definition session_of (svc : TenantDataService) (ks : gocql.Keyspace) : gocql.Session :=
  {| gocql.keyspace := ks; gocql.faults := gocql.cluster_faults (ClusterConfig svc) |}.

(** No collaborator fails during the call. *)
Definition healthy (svc : TenantDataService) : Prop :=
  connects svc ∧ answers svc ∧
  system.generator_failure (UUIDGeneratorService svc) = None.

(** An error a collaborator raised during the call, by its message. *)
Definition raised_by_collaborator (svc : TenantDataService) (msg : string) : Prop :=
  gocql.connect_failure (ClusterConfig svc) = Some msg ∨
  system.generator_failure (UUIDGeneratorService svc) = Some msg ∨
  ∃ stmt values applied,
    gocql.cluster_faults (ClusterConfig svc) stmt values = Some (msg, applied).

(** Further sample collaborators: a cluster that refuses sessions, a
    generator that fails, and a cluster that fails every lookup. *)
Definition unreachable_cluster : gocql.ClusterConfig :=
  {| gocql.connect_failure := Some "no hosts available"%string;
     gocql.cluster_faults := λ _ _, None |}.

Definition blind_cluster : gocql.ClusterConfig :=
  {| gocql.connect_failure := None;
     gocql.cluster_faults := λ stmt _,
       match stmt with
       | gocql.SELECT_secret_key | gocql.SELECT_name | gocql.SELECT_applications =>
           Some ("timeout"%string, false)
       | _ => None
       end |}.

(** A cluster that fails the listing of applications only. *)
Definition unlisting_cluster : gocql.ClusterConfig :=
  {| gocql.connect_failure := None;
     gocql.cluster_faults := λ stmt _,
       match stmt with
       | gocql.SELECT_applications => Some ("timeout"%string, false)
       | _ => None
       end |}.

Definition out_of_entropy : system.UUIDGeneratorService :=
  {| system.generated := system.EmptyUUID;
     system.generator_failure := Some "no entropy"%string |}.

(** ** Sample data

    The example of the specification: a tenant with secret key "s3cr3t",
    an application named "billing" under it, and a cluster and generator
    that do not fail. *)

Definition T1 : system.UUID :=
  (system.UUIDFromBytes
     [x12; x34; x56; x78; x9a; xbc; xde; xf0; x01; x02; x03; x04; x05; x06; x07; x08]).1.

Definition A1 : system.UUID :=
  (system.UUIDFromBytes
     [xa1; x34; x56; x78; x9a; xbc; xde; xf0; x01; x02; x03; x04; x05; x06; x07; x08]).1.

Definition sound_cluster : gocql.ClusterConfig :=
  {| gocql.connect_failure := None; gocql.cluster_faults := λ _ _, None |}.

(** A cluster that answers lookups and fails every other statement. *)
Definition read_only_cluster : gocql.ClusterConfig :=
  {| gocql.connect_failure := None;
     gocql.cluster_faults := λ stmt _,
       match stmt with
       | gocql.SELECT_secret_key | gocql.SELECT_name | gocql.SELECT_applications => None
       | _ => Some ("unavailable"%string, false)
       end |}.

Definition generating (id : system.UUID) (cluster : gocql.ClusterConfig)
    : TenantDataService :=
  {| UUIDGeneratorService :=
       {| system.generated := id; system.generator_failure := None |};
     ClusterConfig := cluster |}.

Definition s3cr3t : Tenant := {| SecretKey := "s3cr3t" |}.
Definition billing : Application := {| Name := "billing" |}.

(** The tables after creating the tenant, after creating the application
    under it, and after deleting the tenant. *)
Definition ks1 : gocql.Keyspace :=
  (perform (generating T1 sound_cluster) (CallCreateTenant s3cr3t) empty_keyspace).2.

Definition ks2 : gocql.Keyspace :=
  (perform (generating A1 sound_cluster) (CallCreateApplication T1 billing) ks1).2.

Definition ks3 : gocql.Keyspace :=
  (perform (generating A1 sound_cluster) (CallDeleteTenant T1) ks2).2.

(** A second secret key, and services built from the sample
    collaborators. *)
Definition n3w : Tenant := {| SecretKey := "n3w" |}.

Definition sound : TenantDataService := generating A1 sound_cluster.

Definition without_generator : TenantDataService :=
  {| UUIDGeneratorService := out_of_entropy; ClusterConfig := sound_cluster |}.

(** ** Identifiers *)

Lemma mapSystemUUIDToGocqlUUID_raw (u : system.UUID) :
  mapSystemUUIDToGocqlUUID u = gocql.MkUUID (system.raw u).
Proof.
  unfold mapSystemUUIDToGocqlUUID, gocql.UUIDFromBytes, system.Bytes.
  by rewrite bytes16_of_list_bytes.
Qed.

Lemma mapGocqlUUIDToSystemUUID_raw (u : gocql.UUID) :
  mapGocqlUUIDToSystemUUID u = system.MkUUID (gocql.raw u).
Proof.
  unfold mapGocqlUUIDToSystemUUID, system.UUIDFromBytes, gocql.Bytes.
  by rewrite bytes16_of_list_bytes.
Qed.

Lemma mapGocqlUUIDToSystemUUID_inj (u v : gocql.UUID) :
  mapGocqlUUIDToSystemUUID u = mapGocqlUUIDToSystemUUID v → u = v.
Proof.
  rewrite !mapGocqlUUIDToSystemUUID_raw. destruct u, v; simpl. congruence.
Qed.

Lemma mapSystemUUIDToGocqlUUID_inj (u v : system.UUID) :
  mapSystemUUIDToGocqlUUID u = mapSystemUUIDToGocqlUUID v → u = v.
Proof.
  rewrite !mapSystemUUIDToGocqlUUID_raw. destruct u, v; simpl. congruence.
Qed.

Lemma map_system_gocql_system (u : gocql.UUID) :
  mapSystemUUIDToGocqlUUID (mapGocqlUUIDToSystemUUID u) = u.
Proof.
  rewrite mapGocqlUUIDToSystemUUID_raw, mapSystemUUIDToGocqlUUID_raw. by destruct u.
Qed.

Lemma map_gocql_system_gocql (u : system.UUID) :
  mapGocqlUUIDToSystemUUID (mapSystemUUIDToGocqlUUID u) = u.
Proof.
  rewrite mapSystemUUIDToGocqlUUID_raw, mapGocqlUUIDToSystemUUID_raw. by destruct u.
Qed.

(** C10.  Converting a system UUID to a gocql UUID and back gives the
    identifier one started from, and each of the two conversions keeps
    the raw sixteen bytes. *)
Theorem uuid_conversion_round_trip (u : system.UUID) (g : gocql.UUID) :
  mapGocqlUUIDToSystemUUID (mapSystemUUIDToGocqlUUID u) = u ∧
  gocql.Bytes (mapSystemUUIDToGocqlUUID u) = system.Bytes u ∧
  system.Bytes (mapGocqlUUIDToSystemUUID g) = gocql.Bytes g ∧
  length (system.Bytes u) = 16.
Proof.
  rewrite mapSystemUUIDToGocqlUUID_raw, !mapGocqlUUIDToSystemUUID_raw.
  repeat split; try done.
  - by destruct u.
  - apply b16_length.
Qed.

(** ** The textual form is read back by the driver *)

Lemma hex_of_byte_facts (b : byte) :
  hexval (hexdigit (hi b)) = Some (hi b) ∧
  hexval (hexdigit (lo b)) = Some (lo b) ∧
  Ascii.eqb (hexdigit (hi b)) "-" = false ∧
  Ascii.eqb (hexdigit (lo b)) "-" = false ∧
  Byte.of_N (hi b * 16 + lo b) = Some b.
Proof. destruct b; vm_compute; done. Qed.

Lemma parse_digits_byte (b : byte) (input : list ascii) (j : nat) :
  j + 2 ≤ 32 →
  gocql.parse_digits (hex_of_byte b ++ input) j =
    (λ ds, hi b :: lo b :: ds) <$> gocql.parse_digits input (S (S j)).
Proof.
  intros Hj. destruct (hex_of_byte_facts b) as (Hh & Hl & Hhd & Hld & _).
  unfold hex_of_byte. simpl.
  rewrite Hhd, Hld, Hh, Hl. simpl.
  destruct (Nat.ltb_spec j 32) as [_|]; [|lia].
  destruct (Nat.ltb_spec (S j) 32) as [_|]; [|lia].
  by destruct (gocql.parse_digits input (S (S j))).
Qed.

Lemma parse_digits_hex (bs : list byte) (input : list ascii) (j : nat) :
  j + 2 * length bs ≤ 32 →
  gocql.parse_digits (hex bs ++ input) j =
    (digits_of bs ++.) <$> gocql.parse_digits input (j + 2 * length bs).
Proof.
  revert j. induction bs as [|b bs IH]; intros j Hj.
  - change (hex [] ++ input) with input. change (j + 2 * length []) with (j + 0).
    rewrite Nat.add_0_r. by destruct (gocql.parse_digits input j).
  - change (hex (b :: bs) ++ input) with (hex_of_byte b ++ (hex bs ++ input)).
    change (digits_of (b :: bs)) with (hi b :: lo b :: digits_of bs).
    change (length (b :: bs)) with (S (length bs)) in *.
    rewrite parse_digits_byte by lia. rewrite IH by lia.
    replace (S (S j) + 2 * length bs) with (j + 2 * S (length bs)) by lia.
    by destruct (gocql.parse_digits input _).
Qed.

Lemma parse_digits_hyphen (input : list ascii) (j : nat) :
  Nat.even j = true →
  gocql.parse_digits ("-"%char :: input) j = gocql.parse_digits input j.
Proof. intros Hj. simpl. by rewrite Hj. Qed.

Lemma pack_digits_of (bs : list byte) : gocql.pack (digits_of bs) = Some bs.
Proof.
  induction bs as [|b bs IH]; [done|].
  change (digits_of (b :: bs)) with (hi b :: lo b :: digits_of bs).
  destruct (hex_of_byte_facts b) as (_ & _ & _ & _ & Hb).
  cbn [gocql.pack]. rewrite Hb, IH. done.
Qed.

Lemma String_chars (u : system.UUID) :
  ∃ g1 g2 g3 g4 g5,
    system.Bytes u = g1 ++ g2 ++ g3 ++ g4 ++ g5 ∧
    length g1 = 4 ∧ length g2 = 2 ∧ length g3 = 2 ∧ length g4 = 2 ∧ length g5 = 6 ∧
    system.String u =
      String.string_of_list_ascii
        (hex g1 ++ "-"%char :: hex g2 ++ "-"%char :: hex g3 ++ "-"%char ::
         hex g4 ++ "-"%char :: hex g5).
Proof.
  unfold system.String. pose proof (b16_length (system.raw u)) as Hlen.
  fold (system.Bytes u) in Hlen. set (l := system.Bytes u) in *.
  exists (take 4 (drop 0 l)), (take 2 (drop 4 l)), (take 2 (drop 6 l)),
         (take 2 (drop 8 l)), (take 6 (drop 10 l)).
  repeat split; try (rewrite length_take, length_drop; lia).
  do 16 (destruct l as [|? l]; [discriminate Hlen|]).
  by destruct l.
Qed.

Theorem ParseUUID_String (u : system.UUID) :
  gocql.ParseUUID (system.String u) = Some (mapSystemUUIDToGocqlUUID u).
Proof.
  destruct (String_chars u) as (g1 & g2 & g3 & g4 & g5 & Hb & H1 & H2 & H3 & H4 & H5 & ->).
  unfold gocql.ParseUUID. rewrite String.list_ascii_of_string_of_list_ascii.
  rewrite parse_digits_hex, H1 by lia. rewrite parse_digits_hyphen by done.
  rewrite parse_digits_hex, H2 by lia. rewrite parse_digits_hyphen by done.
  rewrite parse_digits_hex, H3 by lia. rewrite parse_digits_hyphen by done.
  rewrite parse_digits_hex, H4 by lia. rewrite parse_digits_hyphen by done.
  replace (hex g5) with (hex g5 ++ []) by apply (right_id_L [] (++)).
  rewrite parse_digits_hex, H5 by lia. simpl.
  replace (digits_of g1 ++ digits_of g2 ++ digits_of g3 ++ digits_of g4 ++ digits_of g5 ++ [])
    with (digits_of (system.Bytes u)).
  2:{ rewrite Hb. unfold digits_of. rewrite !bind_app. by rewrite (right_id_L [] (++)). }
  rewrite pack_digits_of. simpl.
  unfold system.Bytes. rewrite bytes16_of_list_bytes.
  by rewrite mapSystemUUIDToGocqlUUID_raw.
Qed.

Lemma String_inj (u v : system.UUID) : system.String u = system.String v → u = v.
Proof.
  intros H. apply mapSystemUUIDToGocqlUUID_inj.
  apply (inj Some). by rewrite <-!ParseUUID_String, H.
Qed.

(** ** The statements of the file, as the driver carries them out *)

Lemma doesTenantExist_eq (id : system.UUID) (s : gocql.Session) :
  doesTenantExist id s =
    match gocql.faults s gocql.SELECT_secret_key (select_tenant id) with
    | Some _ => false
    | None => bool_decide (is_Some (gocql.tenant (gocql.keyspace s) !! key_of id))
    end.
Proof.
  unfold doesTenantExist, gocql.Query_Iter, select_tenant, key_of. simpl.
  destruct (gocql.faults s _ _) as [[e b]|]; [done|].
  rewrite ParseUUID_String. simpl.
  by destruct (gocql.tenant _ !! _).
Qed.

Lemma doesApplicationExist_eq (id aid : system.UUID) (s : gocql.Session) :
  doesApplicationExist id aid s =
    match gocql.faults s gocql.SELECT_name (select_application id aid) with
    | Some _ => false
    | None => bool_decide (is_Some (gocql.application (gocql.keyspace s)
                                      !! (key_of id, key_of aid)))
    end.
Proof.
  unfold doesApplicationExist, gocql.Query_Iter, select_application, key_of. simpl.
  destruct (gocql.faults s _ _) as [[e b]|]; [done|].
  rewrite !ParseUUID_String. simpl.
  by destruct (gocql.application _ !! _).
Qed.

Lemma readTenant_eq (id : system.UUID) (s : gocql.Session) :
  readTenant id s =
    match gocql.faults s gocql.SELECT_secret_key (select_tenant id),
          gocql.tenant (gocql.keyspace s) !! key_of id with
    | None, Some v => ({| SecretKey := v |}, None)
    | _, _ => ({| SecretKey := "" |}, Some (tenantNotFound id))
    end.
Proof.
  unfold readTenant, gocql.Query_Iter, select_tenant, key_of. simpl.
  destruct (gocql.faults s _ _) as [[e b]|]; [done|].
  rewrite ParseUUID_String. simpl.
  by destruct (gocql.tenant _ !! _).
Qed.

Lemma readApplication_eq (id aid : system.UUID) (s : gocql.Session) :
  readApplication id aid s =
    match gocql.faults s gocql.SELECT_name (select_application id aid),
          gocql.application (gocql.keyspace s) !! (key_of id, key_of aid) with
    | None, Some n => ({| Name := n |}, None)
    | _, _ => ({| Name := "" |}, Some (applicationNotFound id aid))
    end.
Proof.
  unfold readApplication, gocql.Query_Iter, select_application, key_of. simpl.
  destruct (gocql.faults s _ _) as [[e b]|]; [done|].
  rewrite !ParseUUID_String. simpl.
  by destruct (gocql.application _ !! _).
Qed.

Lemma addOrUpdateTenant_eq (id : system.UUID) (t : Tenant) (s : gocql.Session) :
  addOrUpdateTenant id t s =
    settle s (gocql.faults s gocql.INSERT_tenant
                [gocql.VUUID (key_of id); gocql.VString (SecretKey t)])
      (with_tenant (key_of id) (SecretKey t) (gocql.keyspace s)).
Proof.
  unfold addOrUpdateTenant, gocql.Exec, settle, key_of. simpl.
  by destruct (gocql.faults s _ _) as [[e []]|].
Qed.

Lemma addOrUpdateApplication_eq (id aid : system.UUID) (a : Application) (s : gocql.Session) :
  addOrUpdateApplication id aid a s =
    settle s (gocql.faults s gocql.INSERT_application
                [gocql.VUUID (key_of id); gocql.VUUID (key_of aid);
                 gocql.VString (Name a)])
      (with_application (key_of id) (key_of aid) (Name a) (gocql.keyspace s)).
Proof.
  unfold addOrUpdateApplication, gocql.Exec, settle, key_of. simpl.
  by destruct (gocql.faults s _ _) as [[e []]|].
Qed.

Lemma Exec_DELETE_tenant (k : gocql.UUID) (s : gocql.Session) :
  gocql.Exec (gocql.Session_Query s gocql.DELETE_tenant [gocql.VUUID k]) =
    settle s (gocql.faults s gocql.DELETE_tenant [gocql.VUUID k])
      (without_tenant k (gocql.keyspace s)).
Proof.
  unfold gocql.Exec, settle. simpl. by destruct (gocql.faults s _ _) as [[e []]|].
Qed.

Lemma Exec_DELETE_application (t a : gocql.UUID) (s : gocql.Session) :
  gocql.Exec (gocql.Session_Query s gocql.DELETE_application
                [gocql.VUUID t; gocql.VUUID a]) =
    settle s (gocql.faults s gocql.DELETE_application [gocql.VUUID t; gocql.VUUID a])
      (without_application t a (gocql.keyspace s)).
Proof.
  unfold gocql.Exec, settle. simpl. by destruct (gocql.faults s _ _) as [[e []]|].
Qed.

Lemma settle_cases (s : gocql.Session) fate ks' :
  ((settle s fate ks').2 = None ∧ fate = None ∧
     gocql.keyspace (settle s fate ks').1 = ks') ∨
  (∃ e b, (settle s fate ks').2 = Some (CollaboratorError e) ∧ fate = Some (e, b) ∧
     gocql.keyspace (settle s fate ks').1 = (if b then ks' else gocql.keyspace s)).
Proof. destruct fate as [[e []]|]; simpl; eauto 10. Qed.

(** ** The exported methods *)

Lemma string_app_assoc (a b c : string) : ((a +:+ b) +:+ c = a +:+ (b +:+ c))%string.
Proof.
  induction a as [|x a IH]; [done|].
  change (String x ((a +:+ b) +:+ c) = String x (a +:+ (b +:+ c))). by rewrite IH.
Qed.

Lemma string_app_empty_r (a : string) : (a +:+ "" = a)%string.
Proof.
  induction a as [|x a IH]; [done|].
  change (String x (a +:+ "") = String x a). by rewrite IH.
Qed.

Lemma tenantNotFound_mentions (id : system.UUID) (msg : string) :
  Errorf msg = tenantNotFound id → mentions msg id.
Proof.
  intros [= ->]. exists "Tenant not found. Tenant ID: "%string, ""%string.
  by rewrite string_app_empty_r.
Qed.

Lemma applicationNotFound_mentions (id aid : system.UUID) (msg : string) :
  Errorf msg = applicationNotFound id aid → mentions msg id ∧ mentions msg aid.
Proof.
  intros [= ->]. split.
  - by exists "Tenant Application not found. Tenant ID: "%string,
              (", Application ID: " +:+ system.String aid)%string.
  - exists ("Tenant Application not found. Tenant ID: " +:+ system.String id
            +:+ ", Application ID: ")%string, ""%string.
    by rewrite string_app_empty_r, !string_app_assoc.
Qed.

Lemma CreateSession_connects (svc : TenantDataService) (ks : gocql.Keyspace) :
  connects svc →
  gocql.CreateSession (ClusterConfig svc) ks =
    inl {| gocql.keyspace := ks; gocql.faults := gocql.cluster_faults (ClusterConfig svc) |}.
Proof. unfold connects, gocql.CreateSession. by intros ->. Qed.

Lemma CreateSession_cases (svc : TenantDataService) (ks : gocql.Keyspace) :
  (∃ e, gocql.CreateSession (ClusterConfig svc) ks = inr (CollaboratorError e)) ∨
  gocql.CreateSession (ClusterConfig svc) ks =
    inl {| gocql.keyspace := ks; gocql.faults := gocql.cluster_faults (ClusterConfig svc) |}.
Proof. unfold gocql.CreateSession. destruct (gocql.connect_failure _); eauto. Qed.

Lemma doesTenantExist_absent (id : system.UUID) (s : gocql.Session) :
  gocql.tenant (gocql.keyspace s) !! key_of id = None → doesTenantExist id s = false.
Proof.
  intros H. rewrite doesTenantExist_eq, H. by destruct (gocql.faults s _ _).
Qed.

Lemma doesTenantExist_true (id : system.UUID) (s : gocql.Session) :
  doesTenantExist id s = true → is_Some (gocql.tenant (gocql.keyspace s) !! key_of id).
Proof.
  rewrite doesTenantExist_eq. destruct (gocql.faults s _ _); [done|].
  apply bool_decide_eq_true_1.
Qed.

Lemma doesApplicationExist_absent (id aid : system.UUID) (s : gocql.Session) :
  gocql.application (gocql.keyspace s) !! (key_of id, key_of aid) = None →
  doesApplicationExist id aid s = false.
Proof.
  intros H. rewrite doesApplicationExist_eq, H. by destruct (gocql.faults s _ _).
Qed.

(** C3.  When no tenant row is stored for an identifier and a session can
    be opened, [ReadTenant], [UpdateTenant] and [DeleteTenant] each return
    the tenant-not-found error (and leave the tables as they were). *)
Theorem absent_tenant_is_NotFound (svc : TenantDataService) (ks : gocql.Keyspace)
    (tenantID : system.UUID) (tenant : Tenant) :
  connects svc →
  gocql.tenant ks !! key_of tenantID = None →
  ReadTenant svc ks tenantID = ({| SecretKey := "" |}, Some (tenantNotFound tenantID), ks) ∧
  UpdateTenant svc ks tenantID tenant = (Some (tenantNotFound tenantID), ks) ∧
  DeleteTenant svc ks tenantID = (Some (tenantNotFound tenantID), ks).
Proof.
  intros Hc Habs.
  unfold ReadTenant, UpdateTenant, DeleteTenant.
  rewrite CreateSession_connects by done.
  rewrite doesTenantExist_absent by done.
  rewrite readTenant_eq. simpl. rewrite Habs.
  by destruct (gocql.cluster_faults _ _ _).
Qed.

Lemma CreateTenant_succeeds (svc : TenantDataService) (ks ks' : gocql.Keyspace)
    (t : Tenant) (id : system.UUID) :
  CreateTenant svc ks t = (id, None, ks') →
  generates svc id ∧ connects svc ∧
  ks' = with_tenant (key_of id) (SecretKey t) ks.
Proof.
  unfold CreateTenant, generates, connects, system.GenerateRandomUUID, gocql.CreateSession.
  destruct (system.generator_failure _); simpl; [done|].
  destruct (gocql.connect_failure _); simpl; [done|].
  rewrite addOrUpdateTenant_eq. simpl.
  destruct (gocql.cluster_faults _ _ _) as [[e []]|]; simpl; try done.
  by intros [= -> ->].
Qed.

(** C4.  When [CreateTenant] succeeds with identifier [id], a later
    [ReadTenant] of [id] that is answered by the cluster, on tables whose
    row for [id] is still the one written, succeeds and returns the
    record that was stored. *)
Theorem create_then_read_tenant (svc svc' : TenantDataService)
    (ks ks' ks'' : gocql.Keyspace) (t : Tenant) (id : system.UUID) :
  CreateTenant svc ks t = (id, None, ks') →
  gocql.tenant ks'' !! key_of id = gocql.tenant ks' !! key_of id →
  connects svc' → answers svc' →
  ReadTenant svc' ks' id = (t, None, ks') ∧
  ReadTenant svc' ks'' id = (t, None, ks'').
Proof.
  intros (_ & _ & ->)%CreateTenant_succeeds Hsame Hc Ha.
  unfold ReadTenant. rewrite !CreateSession_connects by done.
  rewrite !readTenant_eq. simpl. rewrite Ha, Hsame. simpl.
  rewrite lookup_insert_eq. by destruct t.
Qed.

(** C5.  [UpdateApplication], with a session opened: tenant-not-found
    when the tenant row is absent; once the cluster answers its
    statements, application-not-found (naming both identifiers) when the
    tenant row is stored but the application row is not; and when both
    are stored the row under the same key now holds the given name, the
    call succeeds, and no other row and no key changes. *)
Theorem UpdateApplication_cases (svc : TenantDataService) (ks : gocql.Keyspace)
    (tenantID applicationID : system.UUID) (application : Application) :
  connects svc →
  let t := key_of tenantID in
  let a := key_of applicationID in
  let result := UpdateApplication svc ks tenantID applicationID application in
  (gocql.tenant ks !! t = None → result = (Some (tenantNotFound tenantID), ks)) ∧
  (answers svc → is_Some (gocql.tenant ks !! t) →
     gocql.application ks !! (t, a) = None →
     result = (Some (applicationNotFound tenantID applicationID), ks) ∧
     (∃ msg, applicationNotFound tenantID applicationID = Errorf msg ∧
             mentions msg tenantID ∧ mentions msg applicationID)) ∧
  (answers svc → is_Some (gocql.tenant ks !! t) →
     is_Some (gocql.application ks !! (t, a)) →
     result.1 = None ∧
     gocql.tenant result.2 = gocql.tenant ks ∧
     gocql.application result.2 !! (t, a) = Some (Name application) ∧
     (∀ k, k ≠ (t, a) → gocql.application result.2 !! k = gocql.application ks !! k) ∧
     dom (gocql.application result.2) = dom (gocql.application ks)).
Proof.
  intros Hc t a result. subst result. unfold UpdateApplication.
  rewrite CreateSession_connects by done.
  split; [|split].
  - intros Habs. by rewrite doesTenantExist_absent.
  - intros Ha Ht Habs. split.
    + rewrite doesTenantExist_eq, doesApplicationExist_eq. simpl. rewrite !Ha.
      fold t a. rewrite Habs. by rewrite bool_decide_eq_true_2.
    + eexists. split; [reflexivity|]. by apply applicationNotFound_mentions.
  - intros Ha Ht Happ.
    rewrite doesTenantExist_eq, doesApplicationExist_eq. simpl. rewrite !Ha.
    fold t a. rewrite !bool_decide_eq_true_2 by done. simpl.
    rewrite addOrUpdateApplication_eq. simpl. rewrite Ha. simpl. fold t a.
    repeat split.
    + apply lookup_insert_eq.
    + intros k Hk. by apply lookup_insert_ne.
    + rewrite dom_insert_L. apply elem_of_dom in Happ.
      apply (anti_symm (⊆)); [|apply union_subseteq_r].
      apply union_least; [by apply singleton_subseteq_l|done].
Qed.

Lemma DeleteTenant_succeeds (svc : TenantDataService) (ks ks' : gocql.Keyspace)
    (tenantID : system.UUID) :
  DeleteTenant svc ks tenantID = (None, ks') →
  ks' = without_tenant (key_of tenantID) ks.
Proof.
  unfold DeleteTenant.
  destruct (CreateSession_cases svc ks) as [[e ->]| ->]; [done|].
  destruct (doesTenantExist _ _); simpl; [|done].
  rewrite Exec_DELETE_tenant. simpl.
  destruct (gocql.cluster_faults _ _ _) as [[e []]|]; simpl; try done.
  by intros [= <-].
Qed.

Lemma tenantNotFound_not_applicationNotFound (id id' aid : system.UUID) :
  tenantNotFound id ≠ applicationNotFound id' aid.
Proof. discriminate. Qed.

(** C6.  After [DeleteTenant] has succeeded for a tenant that had an
    application, [ReadApplication] for that application returns the
    tenant-not-found error, not the application-not-found one.  The
    application row is still stored, and the answer is the same whatever
    the application table holds: the tenant check decides. *)
Theorem read_application_after_DeleteTenant (svc svc' : TenantDataService)
    (ks ks' : gocql.Keyspace) (T1 A1 : system.UUID) (name : string) :
  gocql.application ks !! (key_of T1, key_of A1) = Some name →
  DeleteTenant svc ks T1 = (None, ks') →
  connects svc' →
  ReadApplication svc' ks' T1 A1 = ({| Name := "" |}, Some (tenantNotFound T1), ks') ∧
  tenantNotFound T1 ≠ applicationNotFound T1 A1 ∧
  gocql.application ks' !! (key_of T1, key_of A1) = Some name ∧
  ∀ applications,
    let ks'' := {| gocql.tenant := gocql.tenant ks'; gocql.application := applications |} in
    ReadApplication svc' ks'' T1 A1 = ({| Name := "" |}, Some (tenantNotFound T1), ks'').
Proof.
  intros Happ ->%DeleteTenant_succeeds Hc.
  assert (∀ applications,
    let ks'' := {| gocql.tenant := delete (key_of T1) (gocql.tenant ks);
                   gocql.application := applications |} in
    ReadApplication svc' ks'' T1 A1 = ({| Name := "" |}, Some (tenantNotFound T1), ks''))
    as Hany.
  { intros applications ks''. unfold ReadApplication.
    rewrite CreateSession_connects by done.
    rewrite doesTenantExist_absent; [done|]. apply lookup_delete_eq. }
  split; [apply (Hany (gocql.application ks))|].
  split; [apply tenantNotFound_not_applicationNotFound|].
  split; [done|]. apply Hany.
Qed.

(** ** Existence checks *)

Lemma rows_matching_key {K} `{Countable K} {V} (m : gmap K V) (k : K) :
  length (filter (λ r : K * V, r.1 = k) (map_to_list m)) =
    match m !! k with Some _ => 1 | None => 0 end.
Proof.
  induction m as [|i x m Hi IH] using map_ind.
  - by rewrite map_to_list_empty, lookup_empty.
  - rewrite map_to_list_insert by done. rewrite filter_cons. simpl.
    destruct (decide (i = k)) as [->|Hne].
    + rewrite lookup_insert_eq. simpl. rewrite IH, Hi. done.
    + rewrite lookup_insert_ne by done. apply IH.
Qed.

Lemma tenant_rows_matching_eq (k : gocql.UUID) (ks : gocql.Keyspace) :
  tenant_rows_matching k ks = match gocql.tenant ks !! k with Some _ => 1 | None => 0 end.
Proof. apply rows_matching_key. Qed.

Lemma application_rows_matching_eq (t a : gocql.UUID) (ks : gocql.Keyspace) :
  application_rows_matching t a ks =
    match gocql.application ks !! (t, a) with Some _ => 1 | None => 0 end.
Proof. apply (rows_matching_key (gocql.application ks) (t, a)). Qed.

(** C7.  When the cluster carries out the point lookup, [doesTenantExist]
    and [doesApplicationExist] return true exactly when one stored row
    matches the key; and they return the same on any other tables that
    hold rows under the same keys, whatever those rows contain. *)
Theorem existence_checks (s : gocql.Session) (tenantID applicationID : system.UUID) :
  gocql.faults s gocql.SELECT_secret_key (select_tenant tenantID) = None →
  gocql.faults s gocql.SELECT_name (select_application tenantID applicationID) = None →
  (doesTenantExist tenantID s = true ↔
     tenant_rows_matching (key_of tenantID) (gocql.keyspace s) = 1) ∧
  (doesApplicationExist tenantID applicationID s = true ↔
     application_rows_matching (key_of tenantID) (key_of applicationID)
       (gocql.keyspace s) = 1) ∧
  (∀ s', gocql.faults s' = gocql.faults s →
     same_keys (gocql.tenant (gocql.keyspace s')) (gocql.tenant (gocql.keyspace s)) →
     doesTenantExist tenantID s' = doesTenantExist tenantID s) ∧
  (∀ s', gocql.faults s' = gocql.faults s →
     same_keys (gocql.application (gocql.keyspace s'))
               (gocql.application (gocql.keyspace s)) →
     doesApplicationExist tenantID applicationID s' =
       doesApplicationExist tenantID applicationID s).
Proof.
  intros Ht Ha. repeat split.
  - rewrite doesTenantExist_eq, Ht, tenant_rows_matching_eq.
    intros [v ->]%bool_decide_eq_true_1. done.
  - rewrite doesTenantExist_eq, Ht, tenant_rows_matching_eq.
    destruct (gocql.tenant _ !! _); [|done]. intros _. by apply bool_decide_eq_true_2.
  - rewrite doesApplicationExist_eq, Ha, application_rows_matching_eq.
    intros [v ->]%bool_decide_eq_true_1. done.
  - rewrite doesApplicationExist_eq, Ha, application_rows_matching_eq.
    destruct (gocql.application _ !! _); [|done]. intros _. by apply bool_decide_eq_true_2.
  - intros s' Hf Hk. rewrite !doesTenantExist_eq, Hf, Ht.
    apply bool_decide_ext, Hk.
  - intros s' Hf Hk. rewrite !doesApplicationExist_eq, Hf, Ha.
    apply bool_decide_ext, Hk.
Qed.

(** ** Reading all applications of a tenant *)

(** The loop stops because [Scan] runs out of rows, never because the
    bound on its rounds is reached: any larger bound gives the same map. *)
Lemma scanApplications_rows (rs : list (gocql.UUID * string)) (fuel : nat)
    (m : gmap system.UUID Application) :
  length rs ≤ fuel →
  scanApplications fuel {| gocql.rows := row_of <$> rs; gocql.err := None |} m =
    foldl record m rs.
Proof.
  revert fuel m. induction rs as [|[a n] rs IH]; intros fuel m Hf.
  - by destruct fuel.
  - destruct fuel as [|fuel]; [simpl in Hf; lia|].
    simpl. apply IH. simpl in Hf. lia.
Qed.

Lemma lookup_foldl_record (rs : list (gocql.UUID * string))
    (m : gmap system.UUID Application) (id : system.UUID) (a : Application) :
  NoDup (fst <$> rs) →
  foldl record m rs !! id = Some a ↔
    (key_of id, Name a) ∈ rs ∨ ((key_of id ∉ fst <$> rs) ∧ m !! id = Some a).
Proof.
  revert m. induction rs as [|[k n] rs IH]; intros m Hnd.
  - simpl. split; [intros ?; right; split; [apply not_elem_of_nil|done]|].
    intros [[]%elem_of_nil|[_ ?]]; done.
  - apply NoDup_cons in Hnd as [Hk Hnd]. simpl in Hk.
    cbn [foldl]. rewrite IH by done. unfold record. simpl.
    destruct (decide (k = key_of id)) as [->|Hne].
    + unfold key_of. rewrite map_gocql_system_gocql, lookup_insert_eq.
      split.
      * intros [Hin|[_ [= <-]]].
        -- destruct Hk. apply list_elem_of_fmap. by exists (key_of id, Name a).
        -- left. simpl. apply list_elem_of_here.
      * intros [Hin|[Hnot _]].
        -- apply elem_of_cons in Hin as [[= <-]|Hin].
           ++ right. split; [done|]. by destruct a.
           ++ destruct Hk. apply list_elem_of_fmap. by exists (key_of id, Name a).
        -- destruct Hnot. apply list_elem_of_here.
    + rewrite lookup_insert_ne.
      2:{ intros <-. apply Hne. unfold key_of. by rewrite map_system_gocql_system. }
      rewrite elem_of_cons, not_elem_of_cons.
      split.
      * intros [Hin|[Hnot Hm]]; [by left; right|]. right. split; [|done].
        split; [congruence|done].
      * intros [[[= ? ?]|Hin]|[[_ Hnot] Hm]]; [congruence|by left|by right].
Qed.

Lemma elem_of_applications_of (t a : gocql.UUID) (n : string) (ks : gocql.Keyspace) :
  (a, n) ∈ gocql.applications_of t ks ↔ gocql.application ks !! (t, a) = Some n.
Proof.
  unfold gocql.applications_of. rewrite list_elem_of_fmap. split.
  - intros ([[t' a'] n'] & [= -> ->] & [Ht Hin]%list_elem_of_filter).
    simpl in Ht. subst t'. by apply elem_of_map_to_list in Hin.
  - intros Hl. exists (t, a, n). split; [done|].
    apply list_elem_of_filter. split; [done|]. by apply elem_of_map_to_list.
Qed.

Lemma NoDup_applications_of (t : gocql.UUID) (ks : gocql.Keyspace) :
  NoDup (fst <$> gocql.applications_of t ks).
Proof.
  unfold gocql.applications_of. rewrite <-list_fmap_compose.
  apply NoDup_fmap_2_strong; [|apply NoDup_filter, NoDup_map_to_list].
  intros [[t1 a1] n1] [[t2 a2] n2] [H1 Hin1]%list_elem_of_filter
         [H2 Hin2]%list_elem_of_filter Heq.
  simpl in *. subst.
  apply elem_of_map_to_list in Hin1, Hin2. congruence.
Qed.

Lemma readAllApplications_lookup (tenantID id : system.UUID) (s : gocql.Session)
    (a : Application) :
  gocql.faults s gocql.SELECT_applications (select_tenant tenantID) = None →
  readAllApplications tenantID s !! id = Some a ↔
    gocql.application (gocql.keyspace s) !! (key_of tenantID, key_of id)
      = Some (Name a).
Proof.
  intros Hf. unfold readAllApplications, gocql.Query_Iter. simpl.
  fold (select_tenant tenantID). rewrite Hf. unfold select_tenant. simpl.
  rewrite ParseUUID_String. simpl.
  fold (key_of tenantID). fold row_of.
  rewrite scanApplications_rows by (by rewrite length_fmap).
  rewrite lookup_foldl_record by apply NoDup_applications_of.
  rewrite elem_of_applications_of, lookup_empty.
  split; [intros [?|[_ [=]]]|intros ?; left]; done.
Qed.

(** X24.  [ReadAllApplications], with a session opened: tenant-not-found
    when the tenant row is absent; when the tenant row is stored and the
    cluster carries out the statements, it succeeds with a map holding an
    entry from identifier to record for each application row stored under
    the tenant, and nothing else. *)
Theorem ReadAllApplications_cases (svc : TenantDataService) (ks : gocql.Keyspace)
    (tenantID : system.UUID) :
  connects svc →
  (gocql.tenant ks !! key_of tenantID = None →
     ReadAllApplications svc ks tenantID = (None, Some (tenantNotFound tenantID), ks)) ∧
  (answers svc → is_Some (gocql.tenant ks !! key_of tenantID) →
     ∃ applications,
       ReadAllApplications svc ks tenantID = (Some applications, None, ks) ∧
       (∀ g n, gocql.application ks !! (key_of tenantID, g) = Some n →
               applications !! mapGocqlUUIDToSystemUUID g = Some {| Name := n |}) ∧
       (∀ id a, applications !! id = Some a ↔
                  gocql.application ks !! (key_of tenantID, key_of id)
                    = Some (Name a))).
Proof.
  intros Hc. unfold ReadAllApplications. rewrite CreateSession_connects by done.
  split.
  - intros Habs. by rewrite doesTenantExist_absent.
  - intros Ha Ht. rewrite doesTenantExist_eq. simpl. rewrite Ha.
    rewrite bool_decide_eq_true_2 by done. simpl.
    eexists. split; [reflexivity|]. split.
    + intros g n Hg. apply readAllApplications_lookup; [apply Ha|].
      simpl. unfold key_of at 2. by rewrite map_system_gocql_system.
    + intros id a. apply readAllApplications_lookup. apply Ha.
Qed.

(** ** Failures *)

(** C9.  With the identifier generated and the session opened, a failing
    insert makes [CreateTenant] return the generated identifier together
    with the insert's error; [CreateApplication], once its tenant check
    has passed, does the same with the generated application identifier. *)
Theorem failed_insert_returns_generated_identifier (svc : TenantDataService)
    (ks : gocql.Keyspace) (tenant : Tenant) (tenantID : system.UUID)
    (application : Application) (id : system.UUID) (e : string) (applied : bool) :
  generates svc id → connects svc →
  (gocql.cluster_faults (ClusterConfig svc) gocql.INSERT_tenant
     [gocql.VUUID (key_of id); gocql.VString (SecretKey tenant)] = Some (e, applied) →
   (CreateTenant svc ks tenant).1 = (id, Some (CollaboratorError e))) ∧
  (gocql.cluster_faults (ClusterConfig svc) gocql.SELECT_secret_key
     (select_tenant tenantID) = None →
   is_Some (gocql.tenant ks !! key_of tenantID) →
   gocql.cluster_faults (ClusterConfig svc) gocql.INSERT_application
     [gocql.VUUID (key_of tenantID); gocql.VUUID (key_of id);
      gocql.VString (Name application)] = Some (e, applied) →
   (CreateApplication svc ks tenantID application).1 = (id, Some (CollaboratorError e))).
Proof.
  intros Hg Hc. unfold CreateTenant, CreateApplication.
  rewrite CreateSession_connects by done. rewrite Hg. split.
  - intros Hf. rewrite addOrUpdateTenant_eq. simpl. rewrite Hf. by destruct applied.
  - intros Hs Ht Hf. rewrite doesTenantExist_eq. simpl. rewrite Hs.
    rewrite bool_decide_eq_true_2 by done. simpl.
    rewrite addOrUpdateApplication_eq. simpl. rewrite Hf. by destruct applied.
Qed.

Ltac open_session svc :=
  unfold gocql.CreateSession;
  destruct (gocql.connect_failure (ClusterConfig svc)); simpl; [by intros [=]|].

Ltac tenant_check id :=
  destruct (doesTenantExist id _) eqn:?; simpl;
  [|by (intros [= <- <-]; split; [done|]; exists id; split; [done|];
        split; [by apply tenantNotFound_mentions|]; left)].

Ltac write_settles :=
  match goal with
  | |- context [settle ?s ?fate ?ks] => by destruct fate as [[? []]|]
  end.

(** C2.  Whenever a call returns an error that the file built itself (it
    builds none but the two not-found errors), the tables are as they
    were before the call, and the message spells out the tenant
    identifier of the call, and the application identifier too when it
    is the application that was not found. *)
Theorem NotFound_precedes_mutation (svc : TenantDataService) (c : Call)
    (ks ks' : gocql.Keyspace) (msg : string) :
  perform svc c ks = (Some (Errorf msg), ks') →
  ks' = ks ∧
  ∃ tenantID, tenant_of c = Some tenantID ∧ mentions msg tenantID ∧
    (Errorf msg = tenantNotFound tenantID ∨
     ∃ applicationID, application_of c = Some applicationID ∧
       Errorf msg = applicationNotFound tenantID applicationID ∧
       mentions msg applicationID).
Proof.
  destruct c as [t|id t|id|id|id a|id aid a|id aid|id|id aid]; simpl.
  - unfold CreateTenant, system.GenerateRandomUUID.
    destruct (system.generator_failure _); simpl; [by intros [=]|].
    open_session svc. rewrite addOrUpdateTenant_eq. write_settles.
  - unfold UpdateTenant. open_session svc. tenant_check id.
    rewrite addOrUpdateTenant_eq. write_settles.
  - unfold ReadTenant. open_session svc. rewrite readTenant_eq. simpl.
    destruct (gocql.cluster_faults _ _ _); simpl;
      [|destruct (gocql.tenant ks !! _); simpl];
      try (by intros [=]);
      (intros [= <- <-]; split; [done|]; exists id; split; [done|];
       split; [by apply tenantNotFound_mentions|by left]).
  - unfold DeleteTenant. open_session svc. tenant_check id.
    rewrite Exec_DELETE_tenant. write_settles.
  - unfold CreateApplication. open_session svc. tenant_check id.
    unfold system.GenerateRandomUUID.
    destruct (system.generator_failure _); simpl; [by intros [=]|].
    rewrite addOrUpdateApplication_eq. write_settles.
  - unfold UpdateApplication. open_session svc. tenant_check id.
    destruct (doesApplicationExist id aid _); simpl.
    + rewrite addOrUpdateApplication_eq. write_settles.
    + intros [= <- <-]. split; [done|]. exists id. split; [done|].
      destruct (applicationNotFound_mentions id aid _ eq_refl) as [Hm1 Hm2].
      split; [done|]. right. by exists aid.
  - unfold ReadApplication. open_session svc. tenant_check id.
    rewrite readApplication_eq. simpl.
    destruct (applicationNotFound_mentions id aid _ eq_refl) as [Hm1 Hm2].
    destruct (gocql.cluster_faults _ _ _); simpl;
      [|destruct (gocql.application ks !! _); simpl];
      try (by intros [=]);
      (intros [= <- <-]; split; [done|]; exists id; split; [done|];
       split; [done|]; right; by exists aid).
  - unfold ReadAllApplications. open_session svc. tenant_check id. by intros [=].
  - unfold DeleteApplication. open_session svc. tenant_check id.
    destruct (doesApplicationExist id aid _); simpl.
    + rewrite Exec_DELETE_application. write_settles.
    + intros [= <- <-]. split; [done|]. exists id. split; [done|].
      destruct (applicationNotFound_mentions id aid _ eq_refl) as [Hm1 Hm2].
      split; [done|]. right. by exists aid.
Qed.

(** ** Referential integrity *)

Lemma perform_effect (svc : TenantDataService) (c : Call) (ks : gocql.Keyspace) :
  effect c ks (perform svc c ks).2.
Proof.
  destruct c as [t|id t|id|id|id a|id aid a|id aid|id|id aid]; simpl.
  - unfold CreateTenant, system.GenerateRandomUUID, gocql.CreateSession.
    destruct (system.generator_failure _); simpl; [constructor|].
    destruct (gocql.connect_failure (ClusterConfig svc)); simpl; [constructor|].
    rewrite addOrUpdateTenant_eq.
    simpl; destruct (gocql.cluster_faults _ _ _) as [[e []]|]; simpl; constructor.
  - unfold UpdateTenant, gocql.CreateSession.
    destruct (gocql.connect_failure (ClusterConfig svc)); simpl; [constructor|].
    destruct (doesTenantExist _ _); simpl; [|constructor].
    rewrite addOrUpdateTenant_eq.
    simpl; destruct (gocql.cluster_faults _ _ _) as [[e []]|]; simpl; constructor.
  - unfold ReadTenant, gocql.CreateSession.
    destruct (gocql.connect_failure (ClusterConfig svc)); simpl; [constructor|].
    destruct (readTenant id _). constructor.
  - unfold DeleteTenant, gocql.CreateSession.
    destruct (gocql.connect_failure (ClusterConfig svc)); simpl; [constructor|].
    destruct (doesTenantExist _ _); simpl; [|constructor].
    rewrite Exec_DELETE_tenant.
    simpl; destruct (gocql.cluster_faults _ _ _) as [[e []]|]; simpl;
      (by apply effect_without_tenant) || constructor.
  - unfold CreateApplication, gocql.CreateSession, system.GenerateRandomUUID.
    destruct (gocql.connect_failure (ClusterConfig svc)); simpl; [constructor|].
    destruct (doesTenantExist _ _) eqn:Ht; simpl; [|constructor].
    apply doesTenantExist_true in Ht. simpl in Ht.
    destruct (system.generator_failure _); simpl; [constructor|].
    rewrite addOrUpdateApplication_eq.
    simpl; destruct (gocql.cluster_faults _ _ _) as [[e []]|]; simpl;
      (by apply effect_with_application) || constructor.
  - unfold UpdateApplication, gocql.CreateSession.
    destruct (gocql.connect_failure (ClusterConfig svc)); simpl; [constructor|].
    destruct (doesTenantExist _ _) eqn:Ht; simpl; [|constructor].
    apply doesTenantExist_true in Ht. simpl in Ht.
    destruct (doesApplicationExist _ _ _); simpl; [|constructor].
    rewrite addOrUpdateApplication_eq.
    simpl; destruct (gocql.cluster_faults _ _ _) as [[e []]|]; simpl;
      (by apply effect_with_application) || constructor.
  - unfold ReadApplication, gocql.CreateSession.
    destruct (gocql.connect_failure (ClusterConfig svc)); simpl; [constructor|].
    destruct (doesTenantExist _ _); simpl; [|constructor].
    destruct (readApplication id aid _). constructor.
  - unfold ReadAllApplications, gocql.CreateSession.
    destruct (gocql.connect_failure (ClusterConfig svc)); simpl; [constructor|].
    destruct (doesTenantExist _ _); simpl; constructor.
  - unfold DeleteApplication, gocql.CreateSession.
    destruct (gocql.connect_failure (ClusterConfig svc)); simpl; [constructor|].
    destruct (doesTenantExist _ _); simpl; [|constructor].
    destruct (doesApplicationExist _ _ _); simpl; [|constructor].
    rewrite Exec_DELETE_application.
    simpl; destruct (gocql.cluster_faults _ _ _) as [[e []]|]; simpl;
      (by apply effect_without_application) || constructor.
Qed.

Lemma effect_keeps_integrity (c : Call) (ks ks' : gocql.Keyspace) :
  effect c ks ks' → is_DeleteTenant c = false →
  referential_integrity ks → referential_integrity ks'.
Proof.
  intros He Hc Hri.
  destruct He as [|k v|k Hd|t a n Ht|t a]; unfold referential_integrity in *; simpl.
  - done.
  - intros t a n Hl. destruct (decide (k = t)) as [->|Hne].
    + rewrite lookup_insert_eq. eauto.
    + rewrite lookup_insert_ne by done. eauto.
  - congruence.
  - intros t' a' n'. destruct (decide ((t, a) = (t', a'))) as [[= <- <-]|Hne].
    + done.
    + rewrite lookup_insert_ne by done. eauto.
  - intros t' a' n'. destruct (decide ((t, a) = (t', a'))) as [[= <- <-]|Hne].
    + by rewrite lookup_delete_eq.
    + rewrite lookup_delete_ne by done. eauto.
Qed.

Lemma DeleteTenant_keeps_applications (svc : TenantDataService) (ks : gocql.Keyspace)
    (tenantID : system.UUID) :
  gocql.application (DeleteTenant svc ks tenantID).2 = gocql.application ks.
Proof.
  unfold DeleteTenant, gocql.CreateSession.
  destruct (gocql.connect_failure (ClusterConfig svc)); simpl; [done|].
  destruct (doesTenantExist _ _); simpl; [|done].
  rewrite Exec_DELETE_tenant. simpl.
  by destruct (gocql.cluster_faults _ _ _) as [[e []]|].
Qed.

Lemma referential_integrity_empty : referential_integrity empty_keyspace.
Proof. intros t a n. simpl. by rewrite lookup_empty. Qed.

(** Every state reached without calling [DeleteTenant] has referential
    integrity. *)
Lemma keeping_tenants_keeps_integrity (ks : gocql.Keyspace) :
  reachable_keeping_tenants ks → referential_integrity ks.
Proof.
  induction 1 as [|svc c ks Hc _ IH].
  - apply referential_integrity_empty.
  - eapply effect_keeps_integrity; [apply perform_effect|done..].
Qed.

Lemma DeleteTenant_changes (svc : TenantDataService) (ks : gocql.Keyspace)
    (tenantID : system.UUID) :
  (DeleteTenant svc ks tenantID).2 = ks ∨
  (is_Some (gocql.tenant ks !! key_of tenantID) ∧
   (DeleteTenant svc ks tenantID).2 = without_tenant (key_of tenantID) ks).
Proof.
  unfold DeleteTenant, gocql.CreateSession.
  destruct (gocql.connect_failure (ClusterConfig svc)); simpl; [by left|].
  destruct (doesTenantExist _ _) eqn:Ht; simpl; [|by left].
  apply doesTenantExist_true in Ht. simpl in Ht.
  rewrite Exec_DELETE_tenant. simpl.
  destruct (gocql.cluster_faults _ _ _) as [[e []]|]; simpl; (by left) || (by right).
Qed.

Lemma DeleteTenant_carried_out (svc : TenantDataService) (ks : gocql.Keyspace)
    (tenantID : system.UUID) :
  connects svc → answers svc →
  is_Some (gocql.tenant ks !! key_of tenantID) →
  DeleteTenant svc ks tenantID = (None, without_tenant (key_of tenantID) ks).
Proof.
  intros Hc Ha Ht. unfold DeleteTenant. rewrite CreateSession_connects by done.
  rewrite doesTenantExist_eq. simpl. rewrite Ha.
  rewrite bool_decide_eq_true_2 by done. simpl.
  rewrite Exec_DELETE_tenant. simpl. by rewrite Ha.
Qed.

(** Removing a tenant row keeps referential integrity exactly when no
    application row is stored under that tenant. *)
Lemma without_tenant_integrity (k : gocql.UUID) (ks : gocql.Keyspace) :
  referential_integrity ks →
  referential_integrity (without_tenant k ks) ↔
    ∀ a, gocql.application ks !! (k, a) = None.
Proof.
  intros Hri. unfold referential_integrity. simpl. split.
  - intros Hri' a. apply eq_None_not_Some. intros [n Hn].
    destruct (Hri' _ _ _ Hn) as [v Hv]. by rewrite lookup_delete_eq in Hv.
  - intros Hnone t a n Hn. destruct (decide (k = t)) as [->|Hne].
    + by rewrite Hnone in Hn.
    + rewrite lookup_delete_ne by done. eauto.
Qed.

(** C1, as the code has it.  Every call other than [DeleteTenant] keeps
    referential integrity.  [DeleteTenant] deletes the tenant row only:
    it leaves the tables as they were or, the row having been found,
    removes that one tenant row and nothing else; it removes it whenever
    it returns no error, and it does so whenever the row is stored and
    the cluster opens the session and carries out the statements.
    Removing the row keeps referential integrity exactly when no
    application row is stored under the tenant; so [DeleteTenant] keeps
    it for a tenant without applications, and leaves the applications of
    any other tenant it deletes stored without a tenant row. *)
Theorem integrity_kept_unless_DeleteTenant (svc : TenantDataService) (c : Call)
    (ks : gocql.Keyspace) :
  referential_integrity ks →
  match c with
  | CallDeleteTenant tenantID =>
      let k := key_of tenantID in
      let deleted := without_tenant k ks in
      ((perform svc c ks).2 = ks ∨
       (is_Some (gocql.tenant ks !! k) ∧ (perform svc c ks).2 = deleted)) ∧
      ((perform svc c ks).1 = None → (perform svc c ks).2 = deleted) ∧
      (connects svc → answers svc → is_Some (gocql.tenant ks !! k) →
       perform svc c ks = (None, deleted)) ∧
      (referential_integrity deleted ↔ ∀ a, gocql.application ks !! (k, a) = None) ∧
      ((∀ a, gocql.application ks !! (k, a) = None) →
       referential_integrity (perform svc c ks).2)
  | _ => referential_integrity (perform svc c ks).2
  end.
Proof.
  intros Hri.
  destruct (is_DeleteTenant c) eqn:Hc.
  - destruct c as [| | |tenantID| | | | |]; try discriminate Hc. simpl.
    pose proof (without_tenant_integrity (key_of tenantID) ks Hri) as Hiff.
    split; [apply DeleteTenant_changes|].
    split.
    { destruct (DeleteTenant svc ks tenantID) as [err ks'] eqn:Hd. simpl.
      intros ->. by apply DeleteTenant_succeeds in Hd. }
    split; [apply DeleteTenant_carried_out|].
    split; [exact Hiff|].
    intros Hnone. destruct (DeleteTenant_changes svc ks tenantID) as [->|[_ ->]]; [done|].
    by apply Hiff.
  - assert (referential_integrity (perform svc c ks).2) as H
      by (eapply effect_keeps_integrity; [apply perform_effect|done..]).
    by destruct c.
Qed.

Lemma ks3_application_stored :
  gocql.application ks3 !! (key_of T1, key_of A1) = Some "billing"%string.
Proof. vm_compute. reflexivity. Qed.

Lemma ks3_tenant_gone : gocql.tenant ks3 !! key_of T1 = None.
Proof. vm_compute. reflexivity. Qed.

(** C1 fails as stated: creating a tenant, creating an application under
    it and deleting the tenant reaches tables that hold an application
    row whose tenant row is gone, although the tables had referential
    integrity before [DeleteTenant] was called. *)
Lemma DeleteTenant_orphans_applications :
  reachable ks3 ∧ ¬ referential_integrity ks3 ∧
  referential_integrity ks2 ∧
  ks3 = (DeleteTenant (generating A1 sound_cluster) ks2 T1).2 ∧
  ¬ (∀ ks, reachable ks → referential_integrity ks).
Proof.
  assert (reachable ks3) as Hreach by (do 3 apply reachable_call; apply reachable_empty).
  assert (¬ referential_integrity ks3) as Hbroken.
  { intros Hri. destruct (Hri _ _ _ ks3_application_stored) as [v Hv].
    rewrite ks3_tenant_gone in Hv. discriminate Hv. }
  repeat split; try done.
  - apply keeping_tenants_keeps_integrity.
    do 2 (apply keeping_call; [done|]). apply keeping_empty.
  - intros Hall. apply Hbroken, Hall, Hreach.
Qed.

(** ** The theorems at the sample data *)

Lemma sound_cluster_answers (id : system.UUID) : answers (generating id sound_cluster).
Proof. intros stmt values. reflexivity. Defined.

Lemma integrity_kept_unless_DeleteTenant_witness :
  referential_integrity empty_keyspace ∧
  referential_integrity ks1 ∧
  referential_integrity ks2 ∧
  perform sound (CallDeleteTenant T1) ks2 = (None, without_tenant (key_of T1) ks2) ∧
  ¬ referential_integrity (without_tenant (key_of T1) ks2) ∧
  referential_integrity (perform sound (CallDeleteTenant T1) ks1).2.
Proof.
  pose proof (integrity_kept_unless_DeleteTenant (generating T1 sound_cluster)
                (CallCreateTenant s3cr3t) empty_keyspace referential_integrity_empty) as H1.
  assert (referential_integrity ks2) as Hri2.
  { apply keeping_tenants_keeps_integrity.
    do 2 (apply keeping_call; [reflexivity|]). apply keeping_empty. }
  destruct (integrity_kept_unless_DeleteTenant sound (CallDeleteTenant T1) ks2 Hri2)
    as (_ & _ & Hdone & Hiff & _).
  destruct (integrity_kept_unless_DeleteTenant sound (CallDeleteTenant T1) ks1 H1)
    as (_ & _ & _ & _ & Hkept).
  split; [apply referential_integrity_empty|]. split; [exact H1|]. split; [exact Hri2|].
  split; [|split].
  - apply Hdone; [reflexivity|apply sound_cluster_answers|vm_compute; eauto].
  - intros Hri. pose proof (proj1 Hiff Hri (key_of A1)) as Hnone.
    vm_compute in Hnone. discriminate Hnone.
  - apply Hkept. intros a. reflexivity.
Defined.

Lemma NotFound_precedes_mutation_witness :
  perform (generating A1 sound_cluster) (CallUpdateApplication T1 T1 billing) ks1 =
    (Some (Errorf ("Tenant Application not found. " +:+
                   "Tenant ID: 12345678-9abc-def0-0102-030405060708, " +:+
                   "Application ID: 12345678-9abc-def0-0102-030405060708")), ks1) ∧
  ks1 = ks1 ∧ mentions
    ("Tenant Application not found. " +:+
     "Tenant ID: 12345678-9abc-def0-0102-030405060708, " +:+
     "Application ID: 12345678-9abc-def0-0102-030405060708") T1.
Proof.
  assert (perform (generating A1 sound_cluster) (CallUpdateApplication T1 T1 billing) ks1 =
    (Some (Errorf ("Tenant Application not found. " +:+
                   "Tenant ID: 12345678-9abc-def0-0102-030405060708, " +:+
                   "Application ID: 12345678-9abc-def0-0102-030405060708")), ks1)) as H
    by (vm_compute; reflexivity).
  split; [exact H|].
  destruct (NotFound_precedes_mutation _ _ _ _ _ H) as (Hks & id & Hid & Hm & _).
  injection Hid as <-. split; [exact Hks|exact Hm].
Defined.

Lemma absent_tenant_is_NotFound_witness :
  connects (generating T1 sound_cluster) ∧
  gocql.tenant empty_keyspace !! key_of T1 = None ∧
  ReadTenant (generating T1 sound_cluster) empty_keyspace T1 =
    ({| SecretKey := "" |}, Some (tenantNotFound T1), empty_keyspace) ∧
  UpdateTenant (generating T1 sound_cluster) empty_keyspace T1 s3cr3t =
    (Some (tenantNotFound T1), empty_keyspace) ∧
  DeleteTenant (generating T1 sound_cluster) empty_keyspace T1 =
    (Some (tenantNotFound T1), empty_keyspace).
Proof.
  split; [reflexivity|]. split; [reflexivity|].
  apply (absent_tenant_is_NotFound (generating T1 sound_cluster) empty_keyspace T1 s3cr3t);
    reflexivity.
Defined.

Lemma create_then_read_tenant_witness :
  CreateTenant (generating T1 sound_cluster) empty_keyspace s3cr3t = (T1, None, ks1) ∧
  gocql.tenant ks2 !! key_of T1 = gocql.tenant ks1 !! key_of T1 ∧
  connects (generating A1 sound_cluster) ∧ answers (generating A1 sound_cluster) ∧
  ReadTenant (generating A1 sound_cluster) ks1 T1 = (s3cr3t, None, ks1) ∧
  ReadTenant (generating A1 sound_cluster) ks2 T1 = (s3cr3t, None, ks2).
Proof.
  assert (CreateTenant (generating T1 sound_cluster) empty_keyspace s3cr3t = (T1, None, ks1))
    as H1 by (vm_compute; reflexivity).
  assert (gocql.tenant ks2 !! key_of T1 = gocql.tenant ks1 !! key_of T1)
    as H2 by (vm_compute; reflexivity).
  split; [exact H1|]. split; [exact H2|]. split; [reflexivity|].
  split; [apply sound_cluster_answers|].
  exact (create_then_read_tenant _ (generating A1 sound_cluster) _ _ _ _ _ H1 H2
           eq_refl (sound_cluster_answers A1)).
Defined.

Lemma UpdateApplication_cases_witness :
  connects (generating A1 sound_cluster) ∧
  UpdateApplication (generating A1 sound_cluster) empty_keyspace T1 A1 billing =
    (Some (tenantNotFound T1), empty_keyspace) ∧
  UpdateApplication (generating A1 sound_cluster) ks1 T1 A1 billing =
    (Some (applicationNotFound T1 A1), ks1) ∧
  gocql.application
    (UpdateApplication (generating A1 sound_cluster) ks2 T1 A1 {| Name := "invoicing" |}).2
    !! (key_of T1, key_of A1) = Some "invoicing"%string.
Proof.
  split; [reflexivity|].
  destruct (UpdateApplication_cases (generating A1 sound_cluster) empty_keyspace T1 A1
              billing eq_refl) as (H1 & _).
  destruct (UpdateApplication_cases (generating A1 sound_cluster) ks1 T1 A1
              billing eq_refl) as (_ & H2 & _).
  destruct (UpdateApplication_cases (generating A1 sound_cluster) ks2 T1 A1
              {| Name := "invoicing" |} eq_refl) as (_ & _ & H3).
  split; [apply H1; reflexivity|]. split.
  - apply H2; [apply sound_cluster_answers|vm_compute; eauto|vm_compute; reflexivity].
  - apply H3; [apply sound_cluster_answers|vm_compute; eauto..].
Defined.

Lemma read_application_after_DeleteTenant_witness :
  gocql.application ks2 !! (key_of T1, key_of A1) = Some "billing"%string ∧
  DeleteTenant (generating A1 sound_cluster) ks2 T1 = (None, ks3) ∧
  connects (generating T1 sound_cluster) ∧
  ReadApplication (generating T1 sound_cluster) ks3 T1 A1 =
    ({| Name := "" |}, Some (tenantNotFound T1), ks3) ∧
  gocql.application ks3 !! (key_of T1, key_of A1) = Some "billing"%string.
Proof.
  assert (gocql.application ks2 !! (key_of T1, key_of A1) = Some "billing"%string)
    as H1 by (vm_compute; reflexivity).
  assert (DeleteTenant (generating A1 sound_cluster) ks2 T1 = (None, ks3))
    as H2 by (vm_compute; reflexivity).
  destruct (read_application_after_DeleteTenant _ (generating T1 sound_cluster)
              _ _ _ _ _ H1 H2 eq_refl) as (H3 & _ & H4 & _).
  split; [exact H1|]. split; [exact H2|]. split; [reflexivity|]. split; [exact H3|exact H4].
Defined.

Lemma existence_checks_witness :
  let s := {| gocql.keyspace := ks2; gocql.faults := λ _ _, None |} in
  gocql.faults s gocql.SELECT_secret_key (select_tenant T1) = None ∧
  gocql.faults s gocql.SELECT_name (select_application T1 A1) = None ∧
  (doesTenantExist T1 s = true ↔ tenant_rows_matching (key_of T1) ks2 = 1) ∧
  (doesApplicationExist T1 A1 s = true ↔
     application_rows_matching (key_of T1) (key_of A1) ks2 = 1).
Proof.
  intros s. split; [reflexivity|]. split; [reflexivity|].
  destruct (existence_checks s T1 A1 eq_refl eq_refl) as (H1 & H2 & _).
  split; [exact H1|exact H2].
Defined.

Lemma ReadAllApplications_cases_witness :
  connects (generating T1 sound_cluster) ∧
  ReadAllApplications (generating T1 sound_cluster) empty_keyspace T1 =
    (None, Some (tenantNotFound T1), empty_keyspace) ∧
  ∃ applications,
    ReadAllApplications (generating T1 sound_cluster) ks2 T1 = (Some applications, None, ks2) ∧
    applications !! A1 = Some billing.
Proof.
  split; [reflexivity|].
  destruct (ReadAllApplications_cases (generating T1 sound_cluster) empty_keyspace T1
              eq_refl) as (H1 & _).
  destruct (ReadAllApplications_cases (generating T1 sound_cluster) ks2 T1
              eq_refl) as (_ & H2).
  split; [apply H1; reflexivity|].
  destruct H2 as (applications & Hread & _ & Hall);
    [apply sound_cluster_answers|vm_compute; eauto|].
  exists applications. split; [exact Hread|].
  apply Hall. vm_compute. reflexivity.
Defined.

Lemma failed_insert_returns_generated_identifier_witness :
  generates (generating A1 read_only_cluster) A1 ∧
  connects (generating A1 read_only_cluster) ∧
  (CreateTenant (generating A1 read_only_cluster) ks1 s3cr3t).1 =
    (A1, Some (CollaboratorError "unavailable")) ∧
  (CreateApplication (generating A1 read_only_cluster) ks1 T1 billing).1 =
    (A1, Some (CollaboratorError "unavailable")).
Proof.
  split; [reflexivity|]. split; [reflexivity|].
  destruct (failed_insert_returns_generated_identifier (generating A1 read_only_cluster)
              ks1 s3cr3t T1 billing A1 "unavailable" false eq_refl eq_refl) as (H1 & H2).
  split; [apply H1; reflexivity|].
  apply H2; [reflexivity|vm_compute; eauto|reflexivity].
Defined.

(** ** Further properties of the methods *)

Lemma doesApplicationExist_true (id aid : system.UUID) (s : gocql.Session) :
  doesApplicationExist id aid s = true →
  is_Some (gocql.application (gocql.keyspace s) !! (key_of id, key_of aid)).
Proof.
  rewrite doesApplicationExist_eq. destruct (gocql.faults s _ _); [done|].
  apply bool_decide_eq_true_1.
Qed.

Lemma doesTenantExist_stored (id : system.UUID) (s : gocql.Session) :
  gocql.faults s gocql.SELECT_secret_key (select_tenant id) = None →
  is_Some (gocql.tenant (gocql.keyspace s) !! key_of id) →
  doesTenantExist id s = true.
Proof. intros Hf Hs. rewrite doesTenantExist_eq, Hf. by apply bool_decide_eq_true_2. Qed.

Lemma doesApplicationExist_stored (id aid : system.UUID) (s : gocql.Session) :
  gocql.faults s gocql.SELECT_name (select_application id aid) = None →
  is_Some (gocql.application (gocql.keyspace s) !! (key_of id, key_of aid)) →
  doesApplicationExist id aid s = true.
Proof. intros Hf Hs. rewrite doesApplicationExist_eq, Hf. by apply bool_decide_eq_true_2. Qed.

Ltac session_or_fail svc :=
  unfold gocql.CreateSession;
  destruct (gocql.connect_failure (ClusterConfig svc)) eqn:?; simpl.

Ltac settle_or_fail :=
  match goal with
  | |- context [settle ?s ?fate ?ks] => destruct fate as [[? []]|] eqn:?; simpl
  end.

Lemma perform_succeeds (svc : TenantDataService) (c : Call) (ks ks' : gocql.Keyspace) :
  perform svc c ks = (None, ks') →
  rows_required c ks ∧ ks' = written svc c ks.
Proof.
  unfold rows_required, written.
  destruct c as [t|id t|id|id|id a|id aid a|id aid|id|id aid]; simpl.
  - unfold CreateTenant, system.GenerateRandomUUID.
    destruct (system.generator_failure _); simpl; [by intros [=]|].
    session_or_fail svc; [by intros [=]|].
    rewrite addOrUpdateTenant_eq. settle_or_fail; by intros [= <-].
  - unfold UpdateTenant. session_or_fail svc; [by intros [=]|].
    destruct (doesTenantExist id _) eqn:Ht; simpl; [|by intros [=]].
    apply doesTenantExist_true in Ht.
    rewrite addOrUpdateTenant_eq. settle_or_fail; by intros [= <-].
  - unfold ReadTenant. session_or_fail svc; [by intros [=]|].
    rewrite readTenant_eq. simpl.
    destruct (gocql.cluster_faults _ _ _); simpl; [by intros [=]|].
    destruct (gocql.tenant ks !! key_of id) eqn:Hl; simpl; [|by intros [=]].
    by intros [= <-].
  - unfold DeleteTenant. session_or_fail svc; [by intros [=]|].
    destruct (doesTenantExist id _) eqn:Ht; simpl; [|by intros [=]].
    apply doesTenantExist_true in Ht.
    rewrite Exec_DELETE_tenant. settle_or_fail; by intros [= <-].
  - unfold CreateApplication. session_or_fail svc; [by intros [=]|].
    destruct (doesTenantExist id _) eqn:Ht; simpl; [|by intros [=]].
    apply doesTenantExist_true in Ht.
    unfold system.GenerateRandomUUID.
    destruct (system.generator_failure _); simpl; [by intros [=]|].
    rewrite addOrUpdateApplication_eq. settle_or_fail; by intros [= <-].
  - unfold UpdateApplication. session_or_fail svc; [by intros [=]|].
    destruct (doesTenantExist id _) eqn:Ht; simpl; [|by intros [=]].
    apply doesTenantExist_true in Ht.
    destruct (doesApplicationExist id aid _) eqn:Ha; simpl; [|by intros [=]].
    apply doesApplicationExist_true in Ha.
    rewrite addOrUpdateApplication_eq. settle_or_fail; by intros [= <-].
  - unfold ReadApplication. session_or_fail svc; [by intros [=]|].
    destruct (doesTenantExist id _) eqn:Ht; simpl; [|by intros [=]].
    apply doesTenantExist_true in Ht.
    rewrite readApplication_eq. simpl.
    destruct (gocql.cluster_faults _ _ _); simpl; [by intros [=]|].
    destruct (gocql.application ks !! _) eqn:Hl; simpl; [|by intros [=]].
    by intros [= <-].
  - unfold ReadAllApplications. session_or_fail svc; [by intros [=]|].
    destruct (doesTenantExist id _) eqn:Ht; simpl; [|by intros [=]].
    apply doesTenantExist_true in Ht. by intros [= <-].
  - unfold DeleteApplication. session_or_fail svc; [by intros [=]|].
    destruct (doesTenantExist id _) eqn:Ht; simpl; [|by intros [=]].
    apply doesTenantExist_true in Ht.
    destruct (doesApplicationExist id aid _) eqn:Ha; simpl; [|by intros [=]].
    apply doesApplicationExist_true in Ha.
    rewrite Exec_DELETE_application. settle_or_fail; by intros [= <-].
Qed.

(** X2.  When no collaborator fails and the rows a call looks for are
    stored, the call returns no error and leaves the tables as its one
    statement writes them. *)
Theorem healthy_call_succeeds (svc : TenantDataService) (c : Call) (ks : gocql.Keyspace) :
  healthy svc → rows_required c ks →
  perform svc c ks = (None, written svc c ks).
Proof.
  intros (Hc & Ha & Hg). unfold rows_required, written.
  destruct c as [t|id t|id|id|id a|id aid a|id aid|id|id aid]; simpl.
  - intros _. unfold CreateTenant, system.GenerateRandomUUID. rewrite Hg. simpl.
    rewrite CreateSession_connects by done.
    rewrite addOrUpdateTenant_eq. simpl. by rewrite Ha.
  - intros [Ht _]. unfold UpdateTenant. rewrite CreateSession_connects by done.
    rewrite doesTenantExist_stored by (done || apply Ha). simpl.
    rewrite addOrUpdateTenant_eq. simpl. by rewrite Ha.
  - intros [[v Ht] _]. unfold ReadTenant. rewrite CreateSession_connects by done.
    rewrite readTenant_eq. simpl. by rewrite Ha, Ht.
  - intros [Ht _]. unfold DeleteTenant. rewrite CreateSession_connects by done.
    rewrite doesTenantExist_stored by (done || apply Ha). simpl.
    rewrite Exec_DELETE_tenant. simpl. by rewrite Ha.
  - intros [Ht _]. unfold CreateApplication, system.GenerateRandomUUID.
    rewrite CreateSession_connects by done.
    rewrite doesTenantExist_stored by (done || apply Ha). simpl. rewrite Hg. simpl.
    rewrite addOrUpdateApplication_eq. simpl. by rewrite Ha.
  - intros [Ht Happ]. unfold UpdateApplication. rewrite CreateSession_connects by done.
    rewrite doesTenantExist_stored by (done || apply Ha). simpl.
    rewrite doesApplicationExist_stored by (done || apply Ha). simpl.
    rewrite addOrUpdateApplication_eq. simpl. by rewrite Ha.
  - intros [Ht [n Happ]]. unfold ReadApplication. rewrite CreateSession_connects by done.
    rewrite doesTenantExist_stored by (done || apply Ha). simpl.
    rewrite readApplication_eq. simpl. by rewrite Ha, Happ.
  - intros [Ht _]. unfold ReadAllApplications. rewrite CreateSession_connects by done.
    by rewrite doesTenantExist_stored by (done || apply Ha).
  - intros [Ht Happ]. unfold DeleteApplication. rewrite CreateSession_connects by done.
    rewrite doesTenantExist_stored by (done || apply Ha). simpl.
    rewrite doesApplicationExist_stored by (done || apply Ha). simpl.
    rewrite Exec_DELETE_application. simpl. by rewrite Ha.
Qed.

Lemma perform_changes (svc : TenantDataService) (c : Call)
    (ks ks' : gocql.Keyspace) (err : option error) :
  perform svc c ks = (err, ks') →
  ks' = ks ∨ (rows_required c ks ∧ statement_of svc c ks = Some ks').
Proof.
  unfold rows_required.
  destruct c as [t|id t|id|id|id a|id aid a|id aid|id|id aid]; simpl.
  - unfold CreateTenant, system.GenerateRandomUUID.
    destruct (system.generator_failure _); simpl; [intros [= _ <-]; by left|].
    session_or_fail svc; [intros [= _ <-]; by left|].
    rewrite addOrUpdateTenant_eq.
    settle_or_fail; intros [= _ <-]; (by left) || (by right).
  - unfold UpdateTenant. session_or_fail svc; [intros [= _ <-]; by left|].
    destruct (doesTenantExist id _) eqn:Ht; simpl; [|intros [= _ <-]; by left].
    apply doesTenantExist_true in Ht.
    rewrite addOrUpdateTenant_eq.
    settle_or_fail; intros [= _ <-]; (by left) || (by right).
  - unfold ReadTenant. session_or_fail svc; [intros [= _ <-]; by left|].
    destruct (readTenant id _). intros [= _ <-]. by left.
  - unfold DeleteTenant. session_or_fail svc; [intros [= _ <-]; by left|].
    destruct (doesTenantExist id _) eqn:Ht; simpl; [|intros [= _ <-]; by left].
    apply doesTenantExist_true in Ht.
    rewrite Exec_DELETE_tenant.
    settle_or_fail; intros [= _ <-]; (by left) || (by right).
  - unfold CreateApplication. session_or_fail svc; [intros [= _ <-]; by left|].
    destruct (doesTenantExist id _) eqn:Ht; simpl; [|intros [= _ <-]; by left].
    apply doesTenantExist_true in Ht.
    unfold system.GenerateRandomUUID.
    destruct (system.generator_failure _); simpl; [intros [= _ <-]; by left|].
    rewrite addOrUpdateApplication_eq.
    settle_or_fail; intros [= _ <-]; (by left) || (by right).
  - unfold UpdateApplication. session_or_fail svc; [intros [= _ <-]; by left|].
    destruct (doesTenantExist id _) eqn:Ht; simpl; [|intros [= _ <-]; by left].
    apply doesTenantExist_true in Ht.
    destruct (doesApplicationExist id aid _) eqn:Ha; simpl; [|intros [= _ <-]; by left].
    apply doesApplicationExist_true in Ha.
    rewrite addOrUpdateApplication_eq.
    settle_or_fail; intros [= _ <-]; (by left) || (by right).
  - unfold ReadApplication. session_or_fail svc; [intros [= _ <-]; by left|].
    destruct (doesTenantExist id _) eqn:Ht; simpl; [|intros [= _ <-]; by left].
    destruct (readApplication id aid _). intros [= _ <-]. by left.
  - unfold ReadAllApplications. session_or_fail svc; [intros [= _ <-]; by left|].
    destruct (doesTenantExist id _) eqn:Ht; simpl; intros [= _ <-]; by left.
  - unfold DeleteApplication. session_or_fail svc; [intros [= _ <-]; by left|].
    destruct (doesTenantExist id _) eqn:Ht; simpl; [|intros [= _ <-]; by left].
    apply doesTenantExist_true in Ht.
    destruct (doesApplicationExist id aid _) eqn:Ha; simpl; [|intros [= _ <-]; by left].
    apply doesApplicationExist_true in Ha.
    rewrite Exec_DELETE_application.
    settle_or_fail; intros [= _ <-]; (by left) || (by right).
Qed.

(** X1.  A call that returns no error found the rows it looks for (the
    tenant row, and the application row for the methods that name an
    application), and left the tables as its one statement writes them
    (unchanged, for the read methods). *)
Theorem success_found_rows_and_wrote (svc : TenantDataService) (c : Call)
    (ks : gocql.Keyspace) :
  (perform svc c ks).1 = None →
  rows_required c ks ∧ (perform svc c ks).2 = written svc c ks.
Proof.
  destruct (perform svc c ks) as [err ks'] eqn:Hp. simpl. intros ->.
  by apply perform_succeeds.
Qed.

(** X3.  Whatever the collaborators do, a call that changes the tables
    found the rows it looks for, and the tables are then as its one
    statement writes them: no write without the checks having passed, and
    never more than one statement's worth of change, also when the call
    returns an error. *)
Theorem writes_only_after_checks (svc : TenantDataService) (c : Call)
    (ks : gocql.Keyspace) :
  (perform svc c ks).2 ≠ ks →
  rows_required c ks ∧ statement_of svc c ks = Some (perform svc c ks).2.
Proof.
  destruct (perform svc c ks) as [err ks'] eqn:Hp. simpl. intros Hne.
  by destruct (perform_changes _ _ _ _ _ Hp) as [->|?].
Qed.

Lemma statement_of_elsewhere (svc : TenantDataService) (c : Call)
    (ks ks' : gocql.Keyspace) (k : gocql.UUID) :
  statement_of svc c ks = Some ks' → k ≠ tenant_touched svc c →
  gocql.tenant ks' !! k = gocql.tenant ks !! k ∧
  ∀ a, gocql.application ks' !! (k, a) = gocql.application ks !! (k, a).
Proof.
  unfold tenant_touched.
  destruct c as [t|id t|id|id|id a|id aid a|id aid|id|id aid]; simpl;
    intros [= <-] Hk; simpl; try done.
  - by rewrite lookup_insert_ne.
  - by rewrite lookup_insert_ne.
  - by rewrite lookup_delete_ne.
  - split; [done|]. intros a'. rewrite lookup_insert_ne; [done|congruence].
  - split; [done|]. intros a'. rewrite lookup_insert_ne; [done|congruence].
  - split; [done|]. intros a'. rewrite lookup_delete_ne; [done|congruence].
Qed.

(** X4.  A call works under one tenant key (the one it is given, or for
    [CreateTenant] the generated one).  Whatever the collaborators do,
    the tenant rows and the application rows stored under any other
    tenant key are after the call what they were before. *)
Theorem other_tenants_untouched (svc : TenantDataService) (c : Call)
    (ks : gocql.Keyspace) (k : gocql.UUID) :
  k ≠ tenant_touched svc c →
  gocql.tenant (perform svc c ks).2 !! k = gocql.tenant ks !! k ∧
  ∀ a, gocql.application (perform svc c ks).2 !! (k, a) = gocql.application ks !! (k, a).
Proof.
  intros Hk. destruct (perform svc c ks) as [err ks'] eqn:Hp. simpl.
  destruct (perform_changes _ _ _ _ _ Hp) as [->|[_ Hs]]; [done|].
  by eapply statement_of_elsewhere.
Qed.

(** X5.  [UpdateTenant] and [UpdateApplication] never add or remove a
    row, whatever the collaborators do: the keys of both tables are after
    the call what they were before, [UpdateTenant] leaves the application
    table as it was and [UpdateApplication] the tenant table. *)
Theorem updates_keep_keys (svc : TenantDataService) (ks : gocql.Keyspace)
    (tenantID applicationID : system.UUID) (tenant : Tenant) (application : Application) :
  let ks1 := (UpdateTenant svc ks tenantID tenant).2 in
  let ks2 := (UpdateApplication svc ks tenantID applicationID application).2 in
  dom (gocql.tenant ks1) = dom (gocql.tenant ks) ∧
  gocql.application ks1 = gocql.application ks ∧
  dom (gocql.application ks2) = dom (gocql.application ks) ∧
  gocql.tenant ks2 = gocql.tenant ks.
Proof.
  intros ks1 ks2.
  assert (∀ {K} `{Countable K} {V} (m : gmap K V) k v,
            is_Some (m !! k) → dom (<[k := v]> m) = dom m) as Hdom.
  { intros K ?? V m k v Hk. rewrite dom_insert_L. apply elem_of_dom in Hk.
    apply (anti_symm (⊆)); [|apply union_subseteq_r].
    apply union_least; [by apply singleton_subseteq_l|done]. }
  split; [|split; [|split]].
  - subst ks1. destruct (UpdateTenant svc ks tenantID tenant) as [err ks'] eqn:Hp.
    destruct (perform_changes svc (CallUpdateTenant tenantID tenant) _ _ _ Hp)
      as [->|[[Ht _] [= <-]]]; [done|]. by apply Hdom.
  - subst ks1. destruct (UpdateTenant svc ks tenantID tenant) as [err ks'] eqn:Hp.
    by destruct (perform_changes svc (CallUpdateTenant tenantID tenant) _ _ _ Hp)
      as [->|[_ [= <-]]].
  - subst ks2.
    destruct (UpdateApplication svc ks tenantID applicationID application)
      as [err ks'] eqn:Hp.
    destruct (perform_changes svc
                (CallUpdateApplication tenantID applicationID application) _ _ _ Hp)
      as [->|[[_ Ha] [= <-]]]; [done|]. by apply Hdom.
  - subst ks2.
    destruct (UpdateApplication svc ks tenantID applicationID application)
      as [err ks'] eqn:Hp.
    by destruct (perform_changes svc
                   (CallUpdateApplication tenantID applicationID application) _ _ _ Hp)
      as [->|[_ [= <-]]].
Qed.

(** ** Lookups that find nothing *)

Lemma tenant_lookup_empty (svc : TenantDataService) (ks : gocql.Keyspace)
    (id : system.UUID) :
  gocql.tenant ks !! key_of id = None ∨
  is_Some (gocql.cluster_faults (ClusterConfig svc) gocql.SELECT_secret_key
             (select_tenant id)) →
  doesTenantExist id (session_of svc ks) = false ∧
  readTenant id (session_of svc ks) = ({| SecretKey := "" |}, Some (tenantNotFound id)).
Proof.
  rewrite doesTenantExist_eq, readTenant_eq. simpl.
  intros [Habs|[f Hf]].
  - rewrite Habs. by destruct (gocql.cluster_faults _ _ _).
  - by rewrite Hf.
Qed.

Lemma application_lookup_empty (svc : TenantDataService) (ks : gocql.Keyspace)
    (id aid : system.UUID) :
  gocql.application ks !! (key_of id, key_of aid) = None ∨
  is_Some (gocql.cluster_faults (ClusterConfig svc) gocql.SELECT_name
             (select_application id aid)) →
  doesApplicationExist id aid (session_of svc ks) = false ∧
  readApplication id aid (session_of svc ks) =
    ({| Name := "" |}, Some (applicationNotFound id aid)).
Proof.
  rewrite doesApplicationExist_eq, readApplication_eq. simpl.
  intros [Habs|[f Hf]].
  - rewrite Habs. by destruct (gocql.cluster_faults _ _ _).
  - by rewrite Hf.
Qed.

Lemma unseen_tenant_fails (svc : TenantDataService) (c : Call) (ks : gocql.Keyspace)
    (id : system.UUID) :
  connects svc → tenant_of c = Some id →
  doesTenantExist id (session_of svc ks) = false →
  readTenant id (session_of svc ks) = ({| SecretKey := "" |}, Some (tenantNotFound id)) →
  perform svc c ks = (Some (tenantNotFound id), ks).
Proof.
  intros Hc Hid Hd Hr.
  destruct c as [t|id' t|id'|id'|id' a|id' aid a|id' aid|id'|id' aid];
    simpl in Hid; try discriminate Hid; injection Hid as ->; simpl;
    unfold UpdateTenant, ReadTenant, DeleteTenant, CreateApplication, UpdateApplication,
      ReadApplication, ReadAllApplications, DeleteApplication;
    rewrite CreateSession_connects by done; fold (session_of svc ks);
    rewrite ?Hd, ?Hr; done.
Qed.

(** X6.  With a session opened, every method that is given a tenant
    identifier returns the tenant-not-found error and leaves the tables
    as they were when the tenant lookup finds nothing: when no tenant row
    is stored, and equally when the row is stored but the cluster fails
    the lookup.  This holds whatever application rows are stored. *)
Theorem tenant_not_seen_fails_every_call (svc : TenantDataService) (c : Call)
    (ks : gocql.Keyspace) (tenantID : system.UUID) :
  connects svc → tenant_of c = Some tenantID →
  gocql.tenant ks !! key_of tenantID = None ∨
  is_Some (gocql.cluster_faults (ClusterConfig svc) gocql.SELECT_secret_key
             (select_tenant tenantID)) →
  perform svc c ks = (Some (tenantNotFound tenantID), ks).
Proof.
  intros Hc Hid Hempty.
  destruct (tenant_lookup_empty svc ks tenantID Hempty) as [Hd Hr].
  by apply unseen_tenant_fails.
Qed.

(** X7.  With a session opened and the tenant row found,
    [UpdateApplication], [ReadApplication] and [DeleteApplication] return
    the application-not-found error and leave the tables as they were
    when the application lookup finds nothing: when no row is stored
    under that tenant and application, and equally when the cluster fails
    the lookup. *)
Theorem application_not_seen_fails (svc : TenantDataService) (c : Call)
    (ks : gocql.Keyspace) (tenantID applicationID : system.UUID) :
  connects svc →
  tenant_of c = Some tenantID → application_of c = Some applicationID →
  gocql.cluster_faults (ClusterConfig svc) gocql.SELECT_secret_key
    (select_tenant tenantID) = None →
  is_Some (gocql.tenant ks !! key_of tenantID) →
  gocql.application ks !! (key_of tenantID, key_of applicationID) = None ∨
  is_Some (gocql.cluster_faults (ClusterConfig svc) gocql.SELECT_name
             (select_application tenantID applicationID)) →
  perform svc c ks = (Some (applicationNotFound tenantID applicationID), ks).
Proof.
  intros Hc Hid Haid Hf Ht Hempty.
  destruct (application_lookup_empty svc ks tenantID applicationID Hempty) as [Hd Hr].
  assert (doesTenantExist tenantID (session_of svc ks) = true) as Hte
    by (by apply doesTenantExist_stored).
  destruct c as [t|id' t|id'|id'|id' a|id' aid a|id' aid|id'|id' aid];
    simpl in Hid, Haid; try discriminate Haid;
    injection Hid as ->; injection Haid as ->; simpl;
    unfold UpdateApplication, ReadApplication, DeleteApplication;
    rewrite CreateSession_connects by done; fold (session_of svc ks);
    rewrite Hte, ?Hd, ?Hr; done.
Qed.

(** ** Calls in sequence *)

Lemma ReadTenant_stored (svc : TenantDataService) (ks : gocql.Keyspace)
    (id : system.UUID) (v : string) :
  connects svc → answers svc →
  gocql.tenant ks !! key_of id = Some v →
  ReadTenant svc ks id = ({| SecretKey := v |}, None, ks).
Proof.
  intros Hc Ha Hv. unfold ReadTenant. rewrite CreateSession_connects by done.
  rewrite readTenant_eq. simpl. by rewrite Ha, Hv.
Qed.

Lemma ReadApplication_stored (svc : TenantDataService) (ks : gocql.Keyspace)
    (id aid : system.UUID) (n : string) :
  connects svc → answers svc →
  is_Some (gocql.tenant ks !! key_of id) →
  gocql.application ks !! (key_of id, key_of aid) = Some n →
  ReadApplication svc ks id aid = ({| Name := n |}, None, ks).
Proof.
  intros Hc Ha Ht Hn. unfold ReadApplication. rewrite CreateSession_connects by done.
  rewrite doesTenantExist_stored by (done || apply Ha). simpl.
  rewrite readApplication_eq. simpl. by rewrite Ha, Hn.
Qed.

Lemma ReadAllApplications_stored (svc : TenantDataService) (ks : gocql.Keyspace)
    (id : system.UUID) :
  connects svc →
  gocql.cluster_faults (ClusterConfig svc) gocql.SELECT_secret_key (select_tenant id)
    = None →
  is_Some (gocql.tenant ks !! key_of id) →
  ReadAllApplications svc ks id =
    (Some (readAllApplications id (session_of svc ks)), None, ks).
Proof.
  intros Hc Ha Ht. unfold ReadAllApplications. rewrite CreateSession_connects by done.
  by rewrite doesTenantExist_stored.
Qed.

Lemma CreateApplication_succeeds (svc : TenantDataService) (ks ks' : gocql.Keyspace)
    (tenantID id : system.UUID) (a : Application) :
  CreateApplication svc ks tenantID a = (id, None, ks') →
  is_Some (gocql.tenant ks !! key_of tenantID) ∧
  ks' = with_application (key_of tenantID) (key_of id) (Name a) ks.
Proof.
  unfold CreateApplication. session_or_fail svc; [by intros [=]|].
  destruct (doesTenantExist tenantID _) eqn:Ht; simpl; [|by intros [=]].
  apply doesTenantExist_true in Ht.
  unfold system.GenerateRandomUUID.
  destruct (system.generator_failure _); simpl; [by intros [=]|].
  rewrite addOrUpdateApplication_eq. settle_or_fail; by intros [= <- <-].
Qed.

(** X8.  Last write wins: after [UpdateTenant] has returned without
    error, [ReadTenant] of the same identifier (session opened, cluster
    answering) returns the record that was given to [UpdateTenant]. *)
Theorem update_then_read_tenant (svc svc' : TenantDataService) (ks ks' : gocql.Keyspace)
    (tenantID : system.UUID) (tenant : Tenant) :
  UpdateTenant svc ks tenantID tenant = (None, ks') →
  connects svc' → answers svc' →
  ReadTenant svc' ks' tenantID = (tenant, None, ks').
Proof.
  intros Hu Hc Ha.
  destruct (perform_succeeds svc (CallUpdateTenant tenantID tenant) _ _ Hu) as [_ ->].
  rewrite (ReadTenant_stored _ _ _ (SecretKey tenant)); [by destruct tenant|done..|].
  apply lookup_insert_eq.
Qed.

(** X9.  After [DeleteTenant] has returned without error, every method
    given that tenant identifier (session opened) returns the
    tenant-not-found error and changes nothing: the tenant cannot be
    read, updated or deleted again, and its applications can neither be
    listed, read, created, updated nor deleted. *)
Theorem deleted_tenant_fails_every_call (svc svc' : TenantDataService)
    (ks ks' : gocql.Keyspace) (tenantID : system.UUID) (c : Call) :
  DeleteTenant svc ks tenantID = (None, ks') →
  connects svc' → tenant_of c = Some tenantID →
  perform svc' c ks' = (Some (tenantNotFound tenantID), ks').
Proof.
  intros ->%DeleteTenant_succeeds Hc Hid.
  assert (gocql.tenant (without_tenant (key_of tenantID) ks) !! key_of tenantID = None)
    as Habs by apply lookup_delete_eq.
  destruct (tenant_lookup_empty svc' _ tenantID (or_introl Habs)) as [Hd Hr].
  by apply unseen_tenant_fails.
Qed.

(** X10.  After [CreateApplication] has returned identifier [id] without
    error, [ReadApplication] of [id] under the same tenant returns the
    record that was stored, and [ReadAllApplications] of the tenant
    succeeds with a map that sends [id] to that record (session opened,
    cluster answering). *)
Theorem create_then_read_application (svc svc' : TenantDataService)
    (ks ks' : gocql.Keyspace) (tenantID id : system.UUID) (application : Application) :
  CreateApplication svc ks tenantID application = (id, None, ks') →
  connects svc' → answers svc' →
  ReadApplication svc' ks' tenantID id = (application, None, ks') ∧
  ∃ applications,
    ReadAllApplications svc' ks' tenantID = (Some applications, None, ks') ∧
    applications !! id = Some application.
Proof.
  intros [Ht ->]%CreateApplication_succeeds Hc Ha. split.
  - rewrite (ReadApplication_stored _ _ _ _ (Name application));
      [by destruct application|done..|]. apply lookup_insert_eq.
  - eexists. split; [by apply ReadAllApplications_stored|].
    apply readAllApplications_lookup; [apply Ha|]. apply lookup_insert_eq.
Qed.

(** X11.  After [DeleteApplication] has returned without error,
    [ReadApplication] of that application returns the
    application-not-found error, and [ReadAllApplications] of the tenant
    still succeeds, with a map that has no entry for the application and
    keeps every other entry it would have had before (session opened,
    cluster answering). *)
Theorem delete_then_read_application (svc svc' : TenantDataService)
    (ks ks' : gocql.Keyspace) (tenantID applicationID : system.UUID) :
  DeleteApplication svc ks tenantID applicationID = (None, ks') →
  connects svc' → answers svc' →
  ReadApplication svc' ks' tenantID applicationID =
    ({| Name := "" |}, Some (applicationNotFound tenantID applicationID), ks') ∧
  ∃ before after,
    ReadAllApplications svc' ks tenantID = (Some before, None, ks) ∧
    ReadAllApplications svc' ks' tenantID = (Some after, None, ks') ∧
    after !! applicationID = None ∧
    ∀ id, id ≠ applicationID → after !! id = before !! id.
Proof.
  intros Hd Hc Ha.
  destruct (perform_succeeds svc (CallDeleteApplication tenantID applicationID) _ _ Hd)
    as [[Ht _] ->]. simpl in Ht.
  assert (gocql.application
            (without_application (key_of tenantID) (key_of applicationID) ks)
            !! (key_of tenantID, key_of applicationID) = None) as Hgone
    by apply lookup_delete_eq.
  split.
  - unfold ReadApplication. rewrite CreateSession_connects by done.
    rewrite doesTenantExist_stored by (done || apply Ha).
    rewrite readApplication_eq. simpl. by rewrite Ha, lookup_delete_eq.
  - do 2 eexists.
    split; [by apply ReadAllApplications_stored|].
    split; [by apply ReadAllApplications_stored|].
    split.
    + apply eq_None_not_Some. intros [a Hl].
      apply readAllApplications_lookup in Hl; [|apply Ha].
      unfold session_of in Hl. simpl in Hl. by rewrite lookup_delete_eq in Hl.
    + intros id Hne. apply option_eq. intros a.
      rewrite !readAllApplications_lookup by apply Ha. simpl.
      rewrite lookup_delete_ne; [done|].
      intros [= Hk]. by apply mapSystemUUIDToGocqlUUID_inj in Hk.
Qed.

(** X12.  [DeleteTenant] leaves the applications of the tenant stored,
    and [CreateTenant] does not look whether the generated identifier is
    in use.  So when a tenant is deleted and a later [CreateTenant] is
    handed the same identifier by the generator, the applications of the
    deleted tenant are readable again under the new tenant. *)
Theorem applications_of_deleted_tenant_return (svc1 svc2 svc3 : TenantDataService)
    (ks ks1 ks2 : gocql.Keyspace) (tenantID applicationID : system.UUID)
    (name : string) (tenant : Tenant) :
  gocql.application ks !! (key_of tenantID, key_of applicationID) = Some name →
  DeleteTenant svc1 ks tenantID = (None, ks1) →
  CreateTenant svc2 ks1 tenant = (tenantID, None, ks2) →
  connects svc3 → answers svc3 →
  ReadApplication svc3 ks2 tenantID applicationID = ({| Name := name |}, None, ks2).
Proof.
  intros Happ ->%DeleteTenant_succeeds (_ & _ & ->)%CreateTenant_succeeds Hc Ha.
  apply ReadApplication_stored; try done.
  simpl. rewrite lookup_insert_eq. eauto.
Qed.

(** X13.  [CreateTenant] does not check whether a row is already stored
    under the generated identifier: when one is, and no collaborator
    fails, the call succeeds, the row now holds the new secret key, and
    no key is added to the tenant table. *)
Theorem CreateTenant_overwrites (svc : TenantDataService) (ks : gocql.Keyspace)
    (id : system.UUID) (old : string) (tenant : Tenant) :
  healthy svc → generates svc id →
  gocql.tenant ks !! key_of id = Some old →
  ∃ ks', CreateTenant svc ks tenant = (id, None, ks') ∧
         gocql.tenant ks' !! key_of id = Some (SecretKey tenant) ∧
         dom (gocql.tenant ks') = dom (gocql.tenant ks) ∧
         gocql.application ks' = gocql.application ks.
Proof.
  intros (Hc & Ha & _) Hg Hold. unfold CreateTenant. rewrite Hg.
  rewrite CreateSession_connects by done.
  rewrite addOrUpdateTenant_eq. simpl. rewrite Ha. simpl.
  eexists. split; [reflexivity|]. simpl. fold (key_of id).
  split; [apply lookup_insert_eq|]. split; [|done].
  rewrite dom_insert_L. assert (key_of id ∈ dom (gocql.tenant ks)) as Hin
    by (apply elem_of_dom; eauto).
  apply (anti_symm (⊆)); [|apply union_subseteq_r].
  apply union_least; [by apply singleton_subseteq_l|done].
Qed.

(** ** Errors of the collaborators *)

(** X14.  When the cluster refuses the session, every method returns the
    cluster's error as it is, together with the zero value of its result
    (the empty identifier, the empty record, the nil map), and leaves the
    tables as they were.  [CreateTenant] asks the generator first, so
    this holds for it when the generator has not failed. *)
Theorem session_failure_is_passed_on (svc : TenantDataService) (ks : gocql.Keyspace)
    (e : string) (tenantID applicationID : system.UUID)
    (tenant : Tenant) (application : Application) :
  gocql.connect_failure (ClusterConfig svc) = Some e →
  let err := Some (CollaboratorError e) in
  (system.generator_failure (UUIDGeneratorService svc) = None →
   CreateTenant svc ks tenant = (system.EmptyUUID, err, ks)) ∧
  UpdateTenant svc ks tenantID tenant = (err, ks) ∧
  ReadTenant svc ks tenantID = ({| SecretKey := "" |}, err, ks) ∧
  DeleteTenant svc ks tenantID = (err, ks) ∧
  CreateApplication svc ks tenantID application = (system.EmptyUUID, err, ks) ∧
  UpdateApplication svc ks tenantID applicationID application = (err, ks) ∧
  ReadApplication svc ks tenantID applicationID = ({| Name := "" |}, err, ks) ∧
  ReadAllApplications svc ks tenantID = (None, err, ks) ∧
  DeleteApplication svc ks tenantID applicationID = (err, ks).
Proof.
  intros He err.
  unfold CreateTenant, UpdateTenant, ReadTenant, DeleteTenant, CreateApplication,
    UpdateApplication, ReadApplication, ReadAllApplications, DeleteApplication,
    gocql.CreateSession, system.GenerateRandomUUID.
  rewrite He. repeat split. by intros ->.
Qed.

(** X15.  When the identifier generator fails, [CreateTenant] returns the
    generator's error with the empty identifier without touching the
    tables, whether or not the cluster can be reached.
    [CreateApplication] does so once its tenant check has passed; when
    the tenant is not found it returns the tenant-not-found error
    instead, the generator's failure going unnoticed. *)
Theorem generator_failure_is_passed_on (svc : TenantDataService) (ks : gocql.Keyspace)
    (g : string) (tenantID : system.UUID) (tenant : Tenant) (application : Application) :
  system.generator_failure (UUIDGeneratorService svc) = Some g →
  CreateTenant svc ks tenant = (system.EmptyUUID, Some (CollaboratorError g), ks) ∧
  (connects svc →
   gocql.cluster_faults (ClusterConfig svc) gocql.SELECT_secret_key
     (select_tenant tenantID) = None →
   is_Some (gocql.tenant ks !! key_of tenantID) →
   CreateApplication svc ks tenantID application =
     (system.EmptyUUID, Some (CollaboratorError g), ks)) ∧
  (connects svc →
   gocql.tenant ks !! key_of tenantID = None →
   CreateApplication svc ks tenantID application =
     (system.EmptyUUID, Some (tenantNotFound tenantID), ks)).
Proof.
  intros Hg. unfold CreateTenant, CreateApplication, system.GenerateRandomUUID.
  rewrite Hg. simpl. split; [done|]. split.
  - intros Hc Hf Ht. rewrite CreateSession_connects by done.
    by rewrite doesTenantExist_stored.
  - intros Hc Ht. rewrite CreateSession_connects by done.
    by rewrite doesTenantExist_absent.
Qed.

(** X16.  When [CreateTenant] returns an error, the identifier beside it
    is either the empty one, and then nothing was written; or it is the
    generated one, and then the error is the insert's, passed on as it
    came, and the row has been written or not as the cluster applied the
    failed insert or not. *)
Theorem CreateTenant_identifier_with_error (svc : TenantDataService)
    (ks ks' : gocql.Keyspace) (id : system.UUID) (tenant : Tenant) (e : error) :
  CreateTenant svc ks tenant = (id, Some e, ks') →
  (id = system.EmptyUUID ∧ ks' = ks) ∨
  (id = system.generated (UUIDGeneratorService svc) ∧
   ∃ msg values applied,
     e = CollaboratorError msg ∧
     gocql.cluster_faults (ClusterConfig svc) gocql.INSERT_tenant values
       = Some (msg, applied) ∧
     ks' = if applied then with_tenant (key_of id) (SecretKey tenant) ks else ks).
Proof.
  unfold CreateTenant, system.GenerateRandomUUID.
  destruct (system.generator_failure _); simpl; [intros [= <- _ <-]; by left|].
  session_or_fail svc; [intros [= <- _ <-]; by left|].
  rewrite addOrUpdateTenant_eq.
  settle_or_fail; intros [= <- <- <-]; right; (split; [done|]); eauto 10.
Qed.

(** X17.  The same for [CreateApplication]: the identifier returned with
    an error is the empty one and nothing was written, or it is the
    generated one, the error is the insert's and the row has been written
    or not as the cluster applied the failed insert or not. *)
Theorem CreateApplication_identifier_with_error (svc : TenantDataService)
    (ks ks' : gocql.Keyspace) (tenantID id : system.UUID) (application : Application)
    (e : error) :
  CreateApplication svc ks tenantID application = (id, Some e, ks') →
  (id = system.EmptyUUID ∧ ks' = ks) ∨
  (id = system.generated (UUIDGeneratorService svc) ∧
   ∃ msg values applied,
     e = CollaboratorError msg ∧
     gocql.cluster_faults (ClusterConfig svc) gocql.INSERT_application values
       = Some (msg, applied) ∧
     ks' = if applied
           then with_application (key_of tenantID) (key_of id) (Name application) ks
           else ks).
Proof.
  unfold CreateApplication.
  session_or_fail svc; [intros [= <- _ <-]; by left|].
  destruct (doesTenantExist tenantID _); simpl; [|intros [= <- _ <-]; by left].
  unfold system.GenerateRandomUUID.
  destruct (system.generator_failure _); simpl; [intros [= <- _ <-]; by left|].
  rewrite addOrUpdateApplication_eq.
  settle_or_fail; intros [= <- <- <-]; right; (split; [done|]); eauto 10.
Qed.

Lemma readAllApplications_failed (id : system.UUID) (s : gocql.Session) :
  is_Some (gocql.faults s gocql.SELECT_applications (select_tenant id)) →
  readAllApplications id s = ∅.
Proof.
  intros [[e b] Hf]. unfold readAllApplications, gocql.Query_Iter. simpl.
  fold (select_tenant id). by rewrite Hf.
Qed.

Lemma readAllApplications_none (id : system.UUID) (s : gocql.Session) :
  (∀ a, gocql.application (gocql.keyspace s) !! (key_of id, a) = None) →
  readAllApplications id s = ∅.
Proof.
  intros Hnone.
  destruct (gocql.faults s gocql.SELECT_applications (select_tenant id)) as [f|] eqn:Hf.
  - apply readAllApplications_failed. by rewrite Hf.
  - apply map_eq. intros i. rewrite lookup_empty. apply eq_None_not_Some.
    intros [a Hl]. apply readAllApplications_lookup in Hl; [|done].
    by rewrite Hnone in Hl.
Qed.

(** X18.  [ReadAllApplications] never reports a failure of its listing
    query.  Once the tenant check has passed it returns no error; the map
    it returns is empty (and not nil) when the tenant has no application
    rows, and it is just as empty when rows are stored but the cluster
    fails the listing. *)
Theorem empty_listing_is_ambiguous (svc : TenantDataService) (ks : gocql.Keyspace)
    (tenantID : system.UUID) :
  connects svc →
  gocql.cluster_faults (ClusterConfig svc) gocql.SELECT_secret_key
    (select_tenant tenantID) = None →
  is_Some (gocql.tenant ks !! key_of tenantID) →
  (∀ a, gocql.application ks !! (key_of tenantID, a) = None) ∨
  is_Some (gocql.cluster_faults (ClusterConfig svc) gocql.SELECT_applications
             (select_tenant tenantID)) →
  ReadAllApplications svc ks tenantID = (Some ∅, None, ks).
Proof.
  intros Hc Hf Ht Hempty. rewrite ReadAllApplications_stored by done.
  destruct Hempty as [Hnone|Hfail].
  - by rewrite readAllApplications_none.
  - by rewrite readAllApplications_failed.
Qed.

Ltac is_tenantNotFound id :=
  left; exists id; split; [done|by left].

Ltac is_applicationNotFound id aid :=
  left; exists id; split; [done|]; right; by exists aid.

Ltac is_passed_on :=
  right; eexists; split; [reflexivity|]; unfold raised_by_collaborator; eauto 10.

(** X19.  Every error a method returns is one of three: the
    tenant-not-found error for the tenant identifier it was given, the
    application-not-found error for the tenant and application
    identifiers it was given, or an error raised by a collaborator (the
    cluster refusing the session, the generator, or the cluster failing a
    statement) passed on as it came. *)
Theorem errors_are_NotFound_or_passed_on (svc : TenantDataService) (c : Call)
    (ks : gocql.Keyspace) (e : error) :
  (perform svc c ks).1 = Some e →
  (∃ tenantID, tenant_of c = Some tenantID ∧
     (e = tenantNotFound tenantID ∨
      ∃ applicationID, application_of c = Some applicationID ∧
        e = applicationNotFound tenantID applicationID)) ∨
  (∃ msg, e = CollaboratorError msg ∧ raised_by_collaborator svc msg).
Proof.
  destruct c as [t|id t|id|id|id a|id aid a|id aid|id|id aid]; simpl.
  - unfold CreateTenant, system.GenerateRandomUUID.
    destruct (system.generator_failure _) eqn:?; simpl; [intros [= <-]; is_passed_on|].
    session_or_fail svc; [intros [= <-]; is_passed_on|].
    rewrite addOrUpdateTenant_eq.
    settle_or_fail; intros [= <-]; is_passed_on.
  - unfold UpdateTenant. session_or_fail svc; [intros [= <-]; is_passed_on|].
    destruct (doesTenantExist id _); simpl; [|intros [= <-]; is_tenantNotFound id].
    rewrite addOrUpdateTenant_eq.
    settle_or_fail; intros [= <-]; is_passed_on.
  - unfold ReadTenant. session_or_fail svc; [intros [= <-]; is_passed_on|].
    rewrite readTenant_eq. simpl.
    destruct (gocql.cluster_faults _ _ _); simpl;
      [intros [= <-]; is_tenantNotFound id|].
    destruct (gocql.tenant ks !! _); simpl; intros [= <-]; is_tenantNotFound id.
  - unfold DeleteTenant. session_or_fail svc; [intros [= <-]; is_passed_on|].
    destruct (doesTenantExist id _); simpl; [|intros [= <-]; is_tenantNotFound id].
    rewrite Exec_DELETE_tenant.
    settle_or_fail; intros [= <-]; is_passed_on.
  - unfold CreateApplication. session_or_fail svc; [intros [= <-]; is_passed_on|].
    destruct (doesTenantExist id _); simpl; [|intros [= <-]; is_tenantNotFound id].
    unfold system.GenerateRandomUUID.
    destruct (system.generator_failure _) eqn:?; simpl; [intros [= <-]; is_passed_on|].
    rewrite addOrUpdateApplication_eq.
    settle_or_fail; intros [= <-]; is_passed_on.
  - unfold UpdateApplication. session_or_fail svc; [intros [= <-]; is_passed_on|].
    destruct (doesTenantExist id _); simpl; [|intros [= <-]; is_tenantNotFound id].
    destruct (doesApplicationExist id aid _); simpl;
      [|intros [= <-]; is_applicationNotFound id aid].
    rewrite addOrUpdateApplication_eq.
    settle_or_fail; intros [= <-]; is_passed_on.
  - unfold ReadApplication. session_or_fail svc; [intros [= <-]; is_passed_on|].
    destruct (doesTenantExist id _); simpl; [|intros [= <-]; is_tenantNotFound id].
    rewrite readApplication_eq. simpl.
    destruct (gocql.cluster_faults _ _ _); simpl;
      [intros [= <-]; is_applicationNotFound id aid|].
    destruct (gocql.application ks !! _); simpl; intros [= <-];
      is_applicationNotFound id aid.
  - unfold ReadAllApplications. session_or_fail svc; [intros [= <-]; is_passed_on|].
    destruct (doesTenantExist id _); simpl; intros [= <-]; is_tenantNotFound id.
  - unfold DeleteApplication. session_or_fail svc; [intros [= <-]; is_passed_on|].
    destruct (doesTenantExist id _); simpl; [|intros [= <-]; is_tenantNotFound id].
    destruct (doesApplicationExist id aid _); simpl;
      [|intros [= <-]; is_applicationNotFound id aid].
    rewrite Exec_DELETE_application.
    settle_or_fail; intros [= <-]; is_passed_on.
Qed.

(** X20.  The error that [mapSystemUUIDToGocqlUUID] and
    [mapGocqlUUIDToSystemUUID] discard is always nil, so neither ever
    hands back the zero identifier in place of its argument.  Converting
    a gocql identifier to a system one and back gives the identifier one
    started from, and different system identifiers are stored under
    different keys. *)
Theorem conversions_lose_nothing (u v : system.UUID) (g : gocql.UUID) :
  (gocql.UUIDFromBytes (system.Bytes u)).2 = None ∧
  (system.UUIDFromBytes (gocql.Bytes g)).2 = None ∧
  mapSystemUUIDToGocqlUUID (mapGocqlUUIDToSystemUUID g) = g ∧
  (mapSystemUUIDToGocqlUUID u = mapSystemUUIDToGocqlUUID v → u = v).
Proof.
  unfold gocql.UUIDFromBytes, system.UUIDFromBytes, system.Bytes, gocql.Bytes.
  rewrite !bytes16_of_list_bytes. simpl.
  repeat split.
  - apply map_system_gocql_system.
  - apply mapSystemUUIDToGocqlUUID_inj.
Qed.

(** ** Reads *)

(** X21.  What [ReadTenant] returns without error is what is stored,
    whatever the collaborators do: the tables are unchanged and the
    record holds the secret key stored for the identifier. *)
Theorem ReadTenant_returns_stored (svc : TenantDataService) (ks ks' : gocql.Keyspace)
    (tenantID : system.UUID) (tenant : Tenant) :
  ReadTenant svc ks tenantID = (tenant, None, ks') →
  ks' = ks ∧ gocql.tenant ks !! key_of tenantID = Some (SecretKey tenant).
Proof.
  unfold ReadTenant. session_or_fail svc; [by intros [=]|].
  rewrite readTenant_eq. simpl.
  destruct (gocql.cluster_faults _ _ _); simpl; [by intros [=]|].
  destruct (gocql.tenant ks !! key_of tenantID) eqn:Hl; simpl; [|by intros [=]].
  by intros [= <- <-].
Qed.

(** X22.  What [ReadApplication] returns without error is what is stored,
    whatever the collaborators do: the tables are unchanged, the tenant
    row is stored, and the record holds the name stored under the tenant
    and application identifiers. *)
Theorem ReadApplication_returns_stored (svc : TenantDataService)
    (ks ks' : gocql.Keyspace) (tenantID applicationID : system.UUID)
    (application : Application) :
  ReadApplication svc ks tenantID applicationID = (application, None, ks') →
  ks' = ks ∧
  is_Some (gocql.tenant ks !! key_of tenantID) ∧
  gocql.application ks !! (key_of tenantID, key_of applicationID)
    = Some (Name application).
Proof.
  unfold ReadApplication. session_or_fail svc; [by intros [=]|].
  destruct (doesTenantExist tenantID _) eqn:Ht; simpl; [|by intros [=]].
  apply doesTenantExist_true in Ht.
  rewrite readApplication_eq. simpl.
  destruct (gocql.cluster_faults _ _ _); simpl; [by intros [=]|].
  destruct (gocql.application ks !! _) eqn:Hl; simpl; [|by intros [=]].
  by intros [= <- <-].
Qed.

(** X23.  Every entry of the map [ReadAllApplications] returns is an
    application row stored under the tenant, whatever the collaborators
    do: the tables are unchanged, the tenant row is stored, and an entry
    from an identifier to a record is only there when a row with that
    name is stored under the tenant and that identifier. *)
Theorem ReadAllApplications_lists_only_stored (svc : TenantDataService)
    (ks ks' : gocql.Keyspace) (tenantID : system.UUID)
    (applications : gmap system.UUID Application) :
  ReadAllApplications svc ks tenantID = (Some applications, None, ks') →
  ks' = ks ∧
  is_Some (gocql.tenant ks !! key_of tenantID) ∧
  ∀ id a, applications !! id = Some a →
          gocql.application ks !! (key_of tenantID, key_of id) = Some (Name a).
Proof.
  unfold ReadAllApplications. session_or_fail svc; [by intros [=]|].
  destruct (doesTenantExist tenantID _) eqn:Ht; simpl; [|by intros [=]].
  apply doesTenantExist_true in Ht.
  intros [= <- <-]. split; [done|]. split; [done|].
  intros id a Hl.
  destruct (gocql.cluster_faults (ClusterConfig svc) gocql.SELECT_applications
              (select_tenant tenantID)) as [f|] eqn:Hf.
  - rewrite readAllApplications_failed in Hl; [done|]. simpl. by rewrite Hf.
  - by apply readAllApplications_lookup in Hl.
Qed.

(** ** The further properties at the sample data *)

Lemma sound_is_healthy (id : system.UUID) : healthy (generating id sound_cluster).
Proof. split; [reflexivity|]. split; [intros ??; reflexivity|reflexivity]. Defined.

Lemma T1_stored_in_ks1 : gocql.tenant ks1 !! key_of T1 = Some "s3cr3t"%string.
Proof. vm_compute. reflexivity. Defined.

Lemma T1_stored_in_ks2 : gocql.tenant ks2 !! key_of T1 = Some "s3cr3t"%string.
Proof. vm_compute. reflexivity. Defined.

Lemma A1_stored_in_ks2 :
  gocql.application ks2 !! (key_of T1, key_of A1) = Some "billing"%string.
Proof. vm_compute. reflexivity. Defined.

Lemma success_found_rows_and_wrote_witness :
  (perform sound (CallUpdateTenant T1 n3w) ks1).1 = None ∧
  rows_required (CallUpdateTenant T1 n3w) ks1 ∧
  (perform sound (CallUpdateTenant T1 n3w) ks1).2 = with_tenant (key_of T1) "n3w" ks1.
Proof.
  assert ((perform sound (CallUpdateTenant T1 n3w) ks1).1 = None) as H
    by (vm_compute; reflexivity).
  split; [exact H|].
  exact (success_found_rows_and_wrote sound (CallUpdateTenant T1 n3w) ks1 H).
Defined.

Lemma healthy_call_succeeds_witness :
  healthy sound ∧ rows_required (CallCreateApplication T1 billing) ks1 ∧
  perform sound (CallCreateApplication T1 billing) ks1 = (None, ks2).
Proof.
  assert (rows_required (CallCreateApplication T1 billing) ks1) as H
    by (split; [rewrite T1_stored_in_ks1; eauto|exact I]).
  split; [apply sound_is_healthy|]. split; [exact H|].
  exact (healthy_call_succeeds sound (CallCreateApplication T1 billing) ks1
           (sound_is_healthy A1) H).
Defined.

Lemma writes_only_after_checks_witness :
  (perform (generating T1 sound_cluster) (CallUpdateTenant T1 n3w) ks1).2 ≠ ks1 ∧
  rows_required (CallUpdateTenant T1 n3w) ks1.
Proof.
  assert ((perform (generating T1 sound_cluster) (CallUpdateTenant T1 n3w) ks1).2 ≠ ks1)
    as H.
  { intros E. apply (f_equal (λ ks, gocql.tenant ks !! key_of T1)) in E.
    vm_compute in E. discriminate E. }
  split; [exact H|].
  exact (proj1 (writes_only_after_checks _ _ _ H)).
Defined.

Lemma other_tenants_untouched_witness :
  key_of A1 ≠ tenant_touched sound (CallDeleteTenant T1) ∧
  gocql.tenant ks3 !! key_of A1 = gocql.tenant ks2 !! key_of A1 ∧
  ∀ a, gocql.application ks3 !! (key_of A1, a) = gocql.application ks2 !! (key_of A1, a).
Proof.
  assert (key_of A1 ≠ tenant_touched sound (CallDeleteTenant T1)) as H.
  { intros E. vm_compute in E. discriminate E. }
  split; [exact H|].
  exact (other_tenants_untouched sound (CallDeleteTenant T1) ks2 (key_of A1) H).
Defined.

Lemma tenant_not_seen_fails_every_call_witness :
  connects (generating A1 blind_cluster) ∧
  tenant_of (CallUpdateTenant T1 n3w) = Some T1 ∧
  is_Some (gocql.cluster_faults blind_cluster gocql.SELECT_secret_key (select_tenant T1)) ∧
  is_Some (gocql.tenant ks1 !! key_of T1) ∧
  perform (generating A1 blind_cluster) (CallUpdateTenant T1 n3w) ks1 =
    (Some (tenantNotFound T1), ks1).
Proof.
  assert (is_Some (gocql.cluster_faults blind_cluster gocql.SELECT_secret_key
                     (select_tenant T1))) as H by (simpl; eauto).
  split; [reflexivity|]. split; [reflexivity|]. split; [exact H|].
  split; [rewrite T1_stored_in_ks1; eauto|].
  exact (tenant_not_seen_fails_every_call (generating A1 blind_cluster)
           (CallUpdateTenant T1 n3w) ks1 T1 eq_refl eq_refl (or_intror H)).
Defined.

Lemma application_not_seen_fails_witness :
  connects sound ∧
  is_Some (gocql.tenant ks1 !! key_of T1) ∧
  gocql.application ks1 !! (key_of T1, key_of A1) = None ∧
  perform sound (CallDeleteApplication T1 A1) ks1 =
    (Some (applicationNotFound T1 A1), ks1).
Proof.
  assert (is_Some (gocql.tenant ks1 !! key_of T1)) as Ht
    by (rewrite T1_stored_in_ks1; eauto).
  assert (gocql.application ks1 !! (key_of T1, key_of A1) = None) as Ha
    by (vm_compute; reflexivity).
  split; [reflexivity|]. split; [exact Ht|]. split; [exact Ha|].
  exact (application_not_seen_fails sound (CallDeleteApplication T1 A1) ks1 T1 A1
           eq_refl eq_refl eq_refl eq_refl Ht (or_introl Ha)).
Defined.

Lemma update_then_read_tenant_witness :
  UpdateTenant sound ks1 T1 n3w = (None, with_tenant (key_of T1) "n3w" ks1) ∧
  connects sound ∧ answers sound ∧
  ReadTenant sound (with_tenant (key_of T1) "n3w" ks1) T1 =
    (n3w, None, with_tenant (key_of T1) "n3w" ks1).
Proof.
  assert (UpdateTenant sound ks1 T1 n3w = (None, with_tenant (key_of T1) "n3w" ks1)) as H
    by (vm_compute; reflexivity).
  split; [exact H|]. split; [reflexivity|]. split; [apply sound_cluster_answers|].
  exact (update_then_read_tenant sound sound _ _ _ _ H eq_refl (sound_cluster_answers A1)).
Defined.

Lemma deleted_tenant_fails_every_call_witness :
  DeleteTenant sound ks2 T1 = (None, ks3) ∧ connects sound ∧
  tenant_of (CallReadAllApplications T1) = Some T1 ∧
  perform sound (CallReadAllApplications T1) ks3 = (Some (tenantNotFound T1), ks3).
Proof.
  assert (DeleteTenant sound ks2 T1 = (None, ks3)) as H by (vm_compute; reflexivity).
  split; [exact H|]. split; [reflexivity|]. split; [reflexivity|].
  exact (deleted_tenant_fails_every_call sound sound ks2 ks3 T1
           (CallReadAllApplications T1) H eq_refl eq_refl).
Defined.

Lemma create_then_read_application_witness :
  CreateApplication sound ks1 T1 billing = (A1, None, ks2) ∧
  connects sound ∧ answers sound ∧
  ReadApplication sound ks2 T1 A1 = (billing, None, ks2).
Proof.
  assert (CreateApplication sound ks1 T1 billing = (A1, None, ks2)) as H
    by (vm_compute; reflexivity).
  split; [exact H|]. split; [reflexivity|]. split; [apply sound_cluster_answers|].
  exact (proj1 (create_then_read_application sound sound _ _ _ _ _ H eq_refl
                  (sound_cluster_answers A1))).
Defined.

Lemma delete_then_read_application_witness :
  DeleteApplication sound ks2 T1 A1 = (None, ks1) ∧
  connects sound ∧ answers sound ∧
  ReadApplication sound ks1 T1 A1 =
    ({| Name := "" |}, Some (applicationNotFound T1 A1), ks1).
Proof.
  assert (DeleteApplication sound ks2 T1 A1 = (None, ks1)) as H
    by (vm_compute; reflexivity).
  split; [exact H|]. split; [reflexivity|]. split; [apply sound_cluster_answers|].
  exact (proj1 (delete_then_read_application sound sound _ _ _ _ H eq_refl
                  (sound_cluster_answers A1))).
Defined.

Lemma applications_of_deleted_tenant_return_witness :
  gocql.application ks2 !! (key_of T1, key_of A1) = Some "billing"%string ∧
  DeleteTenant sound ks2 T1 = (None, ks3) ∧
  CreateTenant (generating T1 sound_cluster) ks3 n3w =
    (T1, None, with_tenant (key_of T1) "n3w" ks3) ∧
  connects sound ∧ answers sound ∧
  ReadApplication sound (with_tenant (key_of T1) "n3w" ks3) T1 A1 =
    (billing, None, with_tenant (key_of T1) "n3w" ks3).
Proof.
  assert (DeleteTenant sound ks2 T1 = (None, ks3)) as H1 by (vm_compute; reflexivity).
  assert (CreateTenant (generating T1 sound_cluster) ks3 n3w =
            (T1, None, with_tenant (key_of T1) "n3w" ks3)) as H2
    by (vm_compute; reflexivity).
  split; [exact A1_stored_in_ks2|]. split; [exact H1|]. split; [exact H2|].
  split; [reflexivity|]. split; [apply sound_cluster_answers|].
  exact (applications_of_deleted_tenant_return sound (generating T1 sound_cluster) sound
           _ _ _ _ _ _ _ A1_stored_in_ks2 H1 H2 eq_refl (sound_cluster_answers A1)).
Defined.

Lemma CreateTenant_overwrites_witness :
  healthy (generating T1 sound_cluster) ∧ generates (generating T1 sound_cluster) T1 ∧
  gocql.tenant ks1 !! key_of T1 = Some "s3cr3t"%string ∧
  ∃ ks', CreateTenant (generating T1 sound_cluster) ks1 n3w = (T1, None, ks') ∧
         gocql.tenant ks' !! key_of T1 = Some "n3w"%string.
Proof.
  split; [apply sound_is_healthy|]. split; [reflexivity|].
  split; [exact T1_stored_in_ks1|].
  destruct (CreateTenant_overwrites (generating T1 sound_cluster) ks1 T1 _ n3w
              (sound_is_healthy T1) eq_refl T1_stored_in_ks1) as (ks' & H1 & H2 & _).
  exists ks'. split; [exact H1|exact H2].
Defined.

Lemma session_failure_is_passed_on_witness :
  gocql.connect_failure (ClusterConfig (generating T1 unreachable_cluster))
    = Some "no hosts available"%string ∧
  ReadAllApplications (generating T1 unreachable_cluster) ks2 T1 =
    (None, Some (CollaboratorError "no hosts available"), ks2).
Proof.
  split; [reflexivity|].
  destruct (session_failure_is_passed_on (generating T1 unreachable_cluster) ks2
              "no hosts available" T1 A1 s3cr3t billing eq_refl)
    as (_ & _ & _ & _ & _ & _ & _ & H & _).
  exact H.
Defined.

Lemma generator_failure_is_passed_on_witness :
  system.generator_failure (UUIDGeneratorService without_generator)
    = Some "no entropy"%string ∧
  CreateTenant without_generator ks1 s3cr3t =
    (system.EmptyUUID, Some (CollaboratorError "no entropy"), ks1) ∧
  CreateApplication without_generator ks1 T1 billing =
    (system.EmptyUUID, Some (CollaboratorError "no entropy"), ks1) ∧
  CreateApplication without_generator ks1 A1 billing =
    (system.EmptyUUID, Some (tenantNotFound A1), ks1).
Proof.
  split; [reflexivity|].
  destruct (generator_failure_is_passed_on without_generator ks1 "no entropy" T1
              s3cr3t billing eq_refl) as (H1 & H2 & _).
  destruct (generator_failure_is_passed_on without_generator ks1 "no entropy" A1
              s3cr3t billing eq_refl) as (_ & _ & H3).
  split; [exact H1|]. split.
  - apply H2; [reflexivity|reflexivity|rewrite T1_stored_in_ks1; eauto].
  - apply H3; [reflexivity|vm_compute; reflexivity].
Defined.

Lemma CreateTenant_identifier_with_error_witness :
  CreateTenant (generating A1 read_only_cluster) ks1 n3w =
    (A1, Some (CollaboratorError "unavailable"), ks1) ∧
  ((A1 = system.EmptyUUID ∧ ks1 = ks1) ∨
   (A1 = system.generated (UUIDGeneratorService (generating A1 read_only_cluster)) ∧
    ∃ msg values applied,
      CollaboratorError "unavailable" = CollaboratorError msg ∧
      gocql.cluster_faults read_only_cluster gocql.INSERT_tenant values
        = Some (msg, applied) ∧
      ks1 = if applied then with_tenant (key_of A1) (SecretKey n3w) ks1 else ks1)).
Proof.
  assert (CreateTenant (generating A1 read_only_cluster) ks1 n3w =
            (A1, Some (CollaboratorError "unavailable"), ks1)) as H
    by (vm_compute; reflexivity).
  split; [exact H|].
  exact (CreateTenant_identifier_with_error _ _ _ _ _ _ H).
Defined.

Lemma CreateApplication_identifier_with_error_witness :
  CreateApplication (generating A1 read_only_cluster) ks1 T1 billing =
    (A1, Some (CollaboratorError "unavailable"), ks1) ∧
  ((A1 = system.EmptyUUID ∧ ks1 = ks1) ∨
   (A1 = system.generated (UUIDGeneratorService (generating A1 read_only_cluster)) ∧
    ∃ msg values applied,
      CollaboratorError "unavailable" = CollaboratorError msg ∧
      gocql.cluster_faults read_only_cluster gocql.INSERT_application values
        = Some (msg, applied) ∧
      ks1 = if applied
            then with_application (key_of T1) (key_of A1) (Name billing) ks1
            else ks1)).
Proof.
  assert (CreateApplication (generating A1 read_only_cluster) ks1 T1 billing =
            (A1, Some (CollaboratorError "unavailable"), ks1)) as H
    by (vm_compute; reflexivity).
  split; [exact H|].
  exact (CreateApplication_identifier_with_error _ _ _ _ _ _ _ H).
Defined.

Lemma empty_listing_is_ambiguous_witness :
  connects (generating A1 unlisting_cluster) ∧
  is_Some (gocql.tenant ks2 !! key_of T1) ∧
  gocql.application ks2 !! (key_of T1, key_of A1) = Some "billing"%string ∧
  ReadAllApplications (generating A1 unlisting_cluster) ks2 T1 = (Some ∅, None, ks2) ∧
  ReadAllApplications sound ks1 T1 = (Some ∅, None, ks1).
Proof.
  assert (is_Some (gocql.tenant ks2 !! key_of T1)) as Ht2
    by (rewrite T1_stored_in_ks2; eauto).
  assert (is_Some (gocql.tenant ks1 !! key_of T1)) as Ht1
    by (rewrite T1_stored_in_ks1; eauto).
  split; [reflexivity|]. split; [exact Ht2|]. split; [exact A1_stored_in_ks2|]. split.
  - apply (empty_listing_is_ambiguous (generating A1 unlisting_cluster) ks2 T1
             eq_refl eq_refl Ht2).
    right. simpl. eauto.
  - apply (empty_listing_is_ambiguous sound ks1 T1 eq_refl eq_refl Ht1).
    left. intros a. reflexivity.
Defined.

Lemma errors_are_NotFound_or_passed_on_witness :
  (perform (generating T1 unreachable_cluster) (CallReadTenant T1) ks1).1 =
    Some (CollaboratorError "no hosts available") ∧
  ∃ msg, CollaboratorError "no hosts available" = CollaboratorError msg ∧
         raised_by_collaborator (generating T1 unreachable_cluster) msg.
Proof.
  assert ((perform (generating T1 unreachable_cluster) (CallReadTenant T1) ks1).1 =
            Some (CollaboratorError "no hosts available")) as H by reflexivity.
  split; [exact H|].
  destruct (errors_are_NotFound_or_passed_on _ _ _ _ H) as [(id & _ & [E|(aid & E & _)])|H'].
  - discriminate E.
  - discriminate E.
  - exact H'.
Defined.

Lemma ReadTenant_returns_stored_witness :
  ReadTenant sound ks2 T1 = (s3cr3t, None, ks2) ∧
  ks2 = ks2 ∧ gocql.tenant ks2 !! key_of T1 = Some "s3cr3t"%string.
Proof.
  assert (ReadTenant sound ks2 T1 = (s3cr3t, None, ks2)) as H by (vm_compute; reflexivity).
  split; [exact H|]. exact (ReadTenant_returns_stored _ _ _ _ _ H).
Defined.

Lemma ReadApplication_returns_stored_witness :
  ReadApplication sound ks2 T1 A1 = (billing, None, ks2) ∧
  gocql.application ks2 !! (key_of T1, key_of A1) = Some "billing"%string.
Proof.
  assert (ReadApplication sound ks2 T1 A1 = (billing, None, ks2)) as H
    by (vm_compute; reflexivity).
  split; [exact H|].
  exact (proj2 (proj2 (ReadApplication_returns_stored _ _ _ _ _ _ H))).
Defined.

Lemma ReadAllApplications_lists_only_stored_witness :
  ReadAllApplications sound ks2 T1 =
    (Some (readAllApplications T1 (session_of sound ks2)), None, ks2) ∧
  readAllApplications T1 (session_of sound ks2) !! A1 = Some billing ∧
  gocql.application ks2 !! (key_of T1, key_of A1) = Some "billing"%string.
Proof.
  assert (ReadAllApplications sound ks2 T1 =
            (Some (readAllApplications T1 (session_of sound ks2)), None, ks2)) as H.
  { apply ReadAllApplications_stored; [reflexivity|reflexivity|].
    rewrite T1_stored_in_ks2. eauto. }
  assert (readAllApplications T1 (session_of sound ks2) !! A1 = Some billing) as Hl.
  { apply readAllApplications_lookup; [reflexivity|]. exact A1_stored_in_ks2. }
  split; [exact H|]. split; [exact Hl|].
  destruct (ReadAllApplications_lists_only_stored _ _ _ _ _ H) as (_ & _ & Hall).
  exact (Hall A1 billing Hl).
Defined.

(** ** The listing that fails *)

(** C8.  Where the code departs from what it documents.  With tenant [T1]
    and its application [A1] stored, and a cluster that answers the
    tenant lookup but fails the query listing the applications,
    [ReadAllApplications] returns an empty map and no error: the stored
    application is missing from the result and the failure is not
    reported. *)
Theorem ReadAllApplications_hides_failed_listing :
  let svc := generating A1 unlisting_cluster in
  connects svc ∧
  is_Some (gocql.tenant ks2 !! key_of T1) ∧
  gocql.application ks2 !! (key_of T1, key_of A1) = Some "billing"%string ∧
  gocql.cluster_faults (ClusterConfig svc) gocql.SELECT_applications (select_tenant T1)
    = Some ("timeout"%string, false) ∧
  ReadAllApplications svc ks2 T1 = (Some ∅, None, ks2) ∧
  ¬ ∃ applications,
      ReadAllApplications svc ks2 T1 = (Some applications, None, ks2) ∧
      applications !! A1 = Some billing.
Proof.
  intros svc.
  assert (is_Some (gocql.tenant ks2 !! key_of T1)) as Ht
    by (rewrite T1_stored_in_ks2; eauto).
  assert (ReadAllApplications svc ks2 T1 = (Some ∅, None, ks2)) as Hread.
  { rewrite ReadAllApplications_stored by done.
    rewrite readAllApplications_failed; [done|]. simpl. eauto. }
  split; [reflexivity|]. split; [exact Ht|]. split; [exact A1_stored_in_ks2|].
  split; [reflexivity|]. split; [exact Hread|].
  intros (applications & Hother & Hl). rewrite Hread in Hother.
  injection Hother as <-. by rewrite lookup_empty in Hl.
Qed.
